(** * generate_test_payload.py: the test payload generator of the MyOS VM system

    A shallow embedding of [generate_test_payload.py] and the properties of
    the files it writes.  The script has four generator functions, each of
    which builds a [bytearray] from literal integers, writes it to a file of
    the current directory opened with mode ['wb'] and prints a status line,
    and a [main] that calls the four in turn.

    The embedding keeps the effects explicit: a computation is a function
    from the state of the world (the directory, what the operating system
    will refuse, the console) to a result, which is a value or a raised
    exception, and the world afterwards. *)

From stdpp Require Import gmap strings pretty.
From Stdlib Require Import ZArith.

Open Scope Z_scope.

Set Warnings "-clear-no-such-hyp".

(** ** The world the script runs in *)

(** What the operating system does with a file name when the script opens it
    for writing and writes to it: both calls complete, [open] is refused (a
    read-only directory, a permission), or the file is opened, and truncated,
    but only the first [n] bytes written reach it (a full disk). *)
Inductive io_fault :=
  | NoFault
  | OpenFails
  | WriteFails (n : nat).

#[local] Instance io_fault_eq_dec : EqDecision io_fault.
Proof. solve_decision. Defined.

(** What the script does to its surroundings, in the order it does it. *)
Inductive event :=
  | EvPrint (line : string)
  | EvOpen (name : string)
  | EvWrite (name : string) (data : list Z)
  | EvClose (name : string).

Record World := mkWorld {
  files : gmap string (list Z);
  faults : string -> io_fault;
  events : list event;
  argv : list string;
  environ : gmap string string
}.

Definition set_files (f : gmap string (list Z) -> gmap string (list Z))
    (w : World) : World :=
  mkWorld (f (files w)) (faults w) (events w) (argv w) (environ w).

Definition log (e : event) (w : World) : World :=
  mkWorld (files w) (faults w) (events w ++ [e]) (argv w) (environ w).

Definition set_args (args : list string) (env : gmap string string)
    (w : World) : World :=
  mkWorld (files w) (faults w) (events w) args env.

(** ** Computations that may raise *)

Inductive exn :=
  | OSError (name : string)
  | ValueError.

Inductive result (A : Type) :=
  | Return (a : A)
  | Raise (e : exn).
Arguments Return {A} a.
Arguments Raise {A} e.

Definition Py (A : Type) : Type := World -> result A * World.

Definition ret {A} (a : A) : Py A := fun w => (Return a, w).

Definition raise {A} (e : exn) : Py A := fun w => (Raise e, w).

Definition bind {A B} (m : Py A) (k : A -> Py B) : Py B := fun w =>
  match m w with
  | (Return a, w') => k a w'
  | (Raise e, w') => (Raise e, w')
  end.

Notation "x <- m ;; k" := (bind m (fun x => k))
  (at level 20, m at level 99, k at level 200, only parsing).
Notation "m ;; k" := (bind m (fun _ => k))
  (at level 100, k at level 200, only parsing, right associativity).

(** ** The Python primitives the script uses *)

(** [print(s)]: one line on the console, which takes every line. *)
Definition print (s : string) : Py unit := fun w => (Return tt, log (EvPrint s) w).

(** [s * n] on strings. *)
Fixpoint str_mul (s : string) (n : nat) : string :=
  match n with
  | O => ""
  | S n' => s +:+ str_mul s n'
  end.

(** [str(n)] of a length, as an f-string interpolates it. *)
Definition str (n : nat) : string := pretty n.

Definition newline : string := String (Ascii.ascii_of_nat 10) "".

(** A [bytearray] holds integers of [range(256)]; [bytearray(xs)],
    [extend] and [append] raise [ValueError] on any other integer. *)
Definition is_byte (x : Z) : bool := (0 <=? x) && (x <? 256).

Definition bytearray_of (xs : list Z) : Py (list Z) :=
  if forallb is_byte xs then ret xs else raise ValueError.

Definition extend (b : list Z) (xs : list Z) : Py (list Z) :=
  if forallb is_byte xs then ret (b ++ xs) else raise ValueError.

Definition append (b : list Z) (x : Z) : Py (list Z) :=
  if is_byte x then ret (b ++ [x]) else raise ValueError.

Definition len (b : list Z) : nat := length b.

(** A file object open for writing; it stands for the file of that name. *)
Record file := FileObj { file_name : string }.

(** [open(name, 'wb')]: creates the file or truncates it to nothing, unless
    the operating system refuses, and then the directory is as it was. *)
Definition open_wb (name : string) : Py file := fun w =>
  let w1 := log (EvOpen name) w in
  match faults w name with
  | OpenFails => (Raise (OSError name), w1)
  | _ => (Return (FileObj name), set_files (insert name []) w1)
  end.

(** [f.write(data)]: the bytes go after what the file holds. *)
Definition write (f : file) (data : list Z) : Py unit := fun w =>
  let name := file_name f in
  let old := default [] (files w !! name) in
  match faults w name with
  | WriteFails n =>
      let part := take n data in
      (Raise (OSError name),
       log (EvWrite name part) (set_files (insert name (old ++ part)) w))
  | _ =>
      (Return tt,
       log (EvWrite name data) (set_files (insert name (old ++ data)) w))
  end.

Definition close (f : file) : World -> World := log (EvClose (file_name f)).

(** [with m as f: body]: the file is closed when the body is left, by its
    end or by an exception, and an exception of the body goes on. *)
Definition with_as {A} (m : Py file) (body : file -> Py A) : Py A :=
  f <- m ;;
  fun w => let (r, w') := body f w in (r, close f w').

(** ** The script *)

Definition generate_x86_payload : Py unit :=
  print "Generating x86 test payload..." ;;
  let payload : list Z := [] in
  (* mov eax, 1 *)
  payload <- extend payload [0xB8; 0x01; 0x00; 0x00; 0x00] ;;
  (* add eax, 100 (0x64) *)
  payload <- extend payload [0x05; 0x64; 0x00; 0x00; 0x00] ;;
  (* inc eax *)
  payload <- append payload 0x40 ;;
  (* dec eax *)
  payload <- append payload 0x48 ;;
  (* push eax *)
  payload <- append payload 0x50 ;;
  (* pop eax *)
  payload <- append payload 0x58 ;;
  (* nop *)
  payload <- append payload 0x90 ;;
  (* the loop's jump *)
  payload <- extend payload [0xEB; 0xF0] ;;
  with_as (open_wb "x86_test.bin") (fun f => write f payload) ;;
  print ("x86 payload generated (" +:+ str (len payload) +:+ " bytes)").

Definition generate_arm_payload : Py unit :=
  print "Generating ARM test payload..." ;;
  let payload : list Z := [] in
  (* mov r0, #1 *)
  payload <- extend payload [0x01; 0x00; 0xA0; 0xE3] ;;
  (* add r0, r0, #100 *)
  payload <- extend payload [0x64; 0x00; 0x80; 0xE2] ;;
  (* cmp r0, #50 *)
  payload <- extend payload [0x32; 0x00; 0x50; 0xE3] ;;
  (* bne *)
  payload <- extend payload [0xF9; 0xFF; 0xFF; 0x1A] ;;
  with_as (open_wb "arm_test.bin") (fun f => write f payload) ;;
  print ("ARM payload generated (" +:+ str (len payload) +:+ " bytes)").

Definition generate_x64_payload : Py unit :=
  print "Generating x64 test payload..." ;;
  let payload : list Z := [] in
  (* mov rax, 1 *)
  payload <- extend payload [0x48; 0xC7; 0xC0; 0x01; 0x00; 0x00; 0x00] ;;
  (* add rax, 100 *)
  payload <- extend payload [0x48; 0x05; 0x64; 0x00; 0x00; 0x00] ;;
  (* inc rax *)
  payload <- extend payload [0x48; 0xFF; 0xC0] ;;
  (* dec rax *)
  payload <- extend payload [0x48; 0xFF; 0xC8] ;;
  (* push rax *)
  payload <- append payload 0x50 ;;
  (* pop rax *)
  payload <- append payload 0x58 ;;
  (* jmp *)
  payload <- extend payload [0xEB; 0xE9] ;;
  with_as (open_wb "x64_test.bin") (fun f => write f payload) ;;
  print ("x64 payload generated (" +:+ str (len payload) +:+ " bytes)").

Definition generate_simple_payload : Py unit :=
  print "Generating simple test payload..." ;;
  payload <- bytearray_of [0x01; 0x02; 0x03; 0x04; 0x05; 0x06; 0x07; 0x08] ;;
  with_as (open_wb "test_payload.bin") (fun f => write f payload) ;;
  print ("Simple payload generated (" +:+ str (len payload) +:+ " bytes)").

Definition main : Py unit :=
  print (str_mul "=" 50) ;;
  print "MyOS VM System - Test Payload Generator" ;;
  print (str_mul "=" 50) ;;
  generate_x86_payload ;;
  generate_arm_payload ;;
  generate_x64_payload ;;
  generate_simple_payload ;;
  print (newline +:+ str_mul "=" 50) ;;
  print "All test payloads generated successfully!" ;;
  print (str_mul "=" 50) ;;
  print "Generated files:" ;;
  print "- x86_test.bin  (x86 architecture)" ;;
  print "- arm_test.bin  (ARM architecture)" ;;
  print "- x64_test.bin  (x64 architecture)" ;;
  print "- test_payload.bin (simple test)" ;;
  print (str_mul "=" 50).

(** The module's last statement: [main()] when the file is run as a script. *)
Definition module_body (dunder_name : string) : Py unit :=
  if decide (dunder_name = "__main__") then main else ret tt.

(** ** What a run leaves behind *)

(** The state after a run that left the directory as [fs] and did [es]. *)
Definition after (w : World) (fs : gmap string (list Z)) (es : list event) : World :=
  mkWorld fs (faults w) (events w ++ es) (argv w) (environ w).

(** The files a sequence of events tried to open, and what it wrote. *)
Definition opened (es : list event) : list string :=
  omap (fun e => match e with EvOpen n => Some n | _ => None end) es.

Definition written (es : list event) : list (string * list Z) :=
  omap (fun e => match e with EvWrite n d => Some (n, d) | _ => None end) es.

Definition printed (es : list event) : list string :=
  omap (fun e => match e with EvPrint s => Some s | _ => None end) es.

(** The file an event is about, if any. *)
Definition event_file (e : event) : option string :=
  match e with
  | EvPrint _ => None
  | EvOpen n | EvWrite n _ | EvClose n => Some n
  end.

(** The contents the literals of each generator add up to. *)
Definition x86_bytes : list Z :=
  [0xB8; 0x01; 0x00; 0x00; 0x00; 0x05; 0x64; 0x00; 0x00; 0x00;
   0x40; 0x48; 0x50; 0x58; 0x90; 0xEB; 0xF0].

Definition arm_bytes : list Z :=
  [0x01; 0x00; 0xA0; 0xE3; 0x64; 0x00; 0x80; 0xE2;
   0x32; 0x00; 0x50; 0xE3; 0xF9; 0xFF; 0xFF; 0x1A].

Definition x64_bytes : list Z :=
  [0x48; 0xC7; 0xC0; 0x01; 0x00; 0x00; 0x00;
   0x48; 0x05; 0x64; 0x00; 0x00; 0x00;
   0x48; 0xFF; 0xC0; 0x48; 0xFF; 0xC8; 0x50; 0x58; 0xEB; 0xE9].

Definition simple_bytes : list Z :=
  [0x01; 0x02; 0x03; 0x04; 0x05; 0x06; 0x07; 0x08].

(** The outcome of a generator that announces itself with [banner], writes
    [data] to [name] and reports with [status], by what the operating system
    does with [name].  Each generator is proved equal to it below. *)
Definition attempt (banner name : string) (data : list Z) (status : string)
    (w : World) : result unit * World :=
  match faults w name with
  | NoFault =>
      (Return tt,
       after w (<[name := data]> (files w))
         [EvPrint banner; EvOpen name; EvWrite name data; EvClose name;
          EvPrint status])
  | OpenFails =>
      (Raise (OSError name), after w (files w) [EvPrint banner; EvOpen name])
  | WriteFails n =>
      (Raise (OSError name),
       after w (<[name := take n data]> (files w))
         [EvPrint banner; EvOpen name; EvWrite name (take n data);
          EvClose name])
  end.

(** ** What the bytes encode *)

(** The instruction encodings of the three architectures, as far as the
    comments of the script name instructions: they are not part of the
    script, which holds the bytes as literals, and serve to say what those
    literals encode. *)

(** A 32-bit value as four bytes, least significant first. *)
Definition le32 (v : Z) : list Z :=
  [Z.land v 0xFF; Z.land (Z.shiftr v 8) 0xFF;
   Z.land (Z.shiftr v 16) 0xFF; Z.land (Z.shiftr v 24) 0xFF].

(** A signed 8-bit displacement as a byte, in two's complement. *)
Definition rel8 (d : Z) : Z := Z.land d 0xFF.

Module X86.

Inductive reg32 := EAX | ECX | EDX | EBX | ESP | EBP | ESI | EDI.

Definition reg_code (r : reg32) : Z :=
  match r with
  | EAX => 0 | ECX => 1 | EDX => 2 | EBX => 3
  | ESP => 4 | EBP => 5 | ESI => 6 | EDI => 7
  end.

Inductive instr :=
  | MOV_r32_imm32 (r : reg32) (imm : Z)
  | ADD_EAX_imm32 (imm : Z)
  | INC_r32 (r : reg32)
  | DEC_r32 (r : reg32)
  | PUSH_r32 (r : reg32)
  | POP_r32 (r : reg32)
  | NOP
  | JMP_rel8 (d : Z).

(** Opcodes of the 32-bit mode: B8+rd id, 05 id, 40+rd, 48+rd, 50+rd,
    58+rd, 90, EB cb. *)
Definition encode (i : instr) : list Z :=
  match i with
  | MOV_r32_imm32 r imm => (0xB8 + reg_code r) :: le32 imm
  | ADD_EAX_imm32 imm => 0x05 :: le32 imm
  | INC_r32 r => [0x40 + reg_code r]
  | DEC_r32 r => [0x48 + reg_code r]
  | PUSH_r32 r => [0x50 + reg_code r]
  | POP_r32 r => [0x58 + reg_code r]
  | NOP => [0x90]
  | JMP_rel8 d => [0xEB; rel8 d]
  end.

Inductive kind :=
  | LoadImmediate | AddImmediate | Increment | Decrement
  | StackPush | StackPop | NoOp
  | ShortRelativeJump (backward : bool).

Definition kind_of (i : instr) : kind :=
  match i with
  | MOV_r32_imm32 _ _ => LoadImmediate
  | ADD_EAX_imm32 _ => AddImmediate
  | INC_r32 _ => Increment
  | DEC_r32 _ => Decrement
  | PUSH_r32 _ => StackPush
  | POP_r32 _ => StackPop
  | NOP => NoOp
  | JMP_rel8 d => ShortRelativeJump (d <? 0)
  end.

(** The instructions the comments of [generate_x86_payload] name; the
    displacement of the jump is the one its byte [0xF0] holds. *)
Definition program : list instr :=
  [MOV_r32_imm32 EAX 1; ADD_EAX_imm32 100; INC_r32 EAX; DEC_r32 EAX;
   PUSH_r32 EAX; POP_r32 EAX; NOP; JMP_rel8 (-16)].

End X86.

Module X64.

Inductive reg64 := RAX | RCX | RDX | RBX | RSP | RBP | RSI | RDI.

Definition reg_code (r : reg64) : Z :=
  match r with
  | RAX => 0 | RCX => 1 | RDX => 2 | RBX => 3
  | RSP => 4 | RBP => 5 | RSI => 6 | RDI => 7
  end.

(** The REX prefix with W set: a 64-bit operand. *)
Definition rex_w : Z := 0x48.

(** The ModR/M byte: mode, register or opcode extension, register. *)
Definition modrm (md reg rm : Z) : Z :=
  Z.lor (Z.shiftl md 6) (Z.lor (Z.shiftl reg 3) rm).

Inductive instr :=
  | MOV_r64_imm32 (r : reg64) (imm : Z)
  | ADD_RAX_imm32 (imm : Z)
  | INC_r64 (r : reg64)
  | DEC_r64 (r : reg64)
  | PUSH_r64 (r : reg64)
  | POP_r64 (r : reg64)
  | JMP_rel8 (d : Z).

(** Opcodes of the 64-bit mode: REX.W C7 /0 id, REX.W 05 id, REX.W FF /0,
    REX.W FF /1, 50+rd, 58+rd, EB cb. *)
Definition encode (i : instr) : list Z :=
  match i with
  | MOV_r64_imm32 r imm => [rex_w; 0xC7; modrm 3 0 (reg_code r)] ++ le32 imm
  | ADD_RAX_imm32 imm => [rex_w; 0x05] ++ le32 imm
  | INC_r64 r => [rex_w; 0xFF; modrm 3 0 (reg_code r)]
  | DEC_r64 r => [rex_w; 0xFF; modrm 3 1 (reg_code r)]
  | PUSH_r64 r => [0x50 + reg_code r]
  | POP_r64 r => [0x58 + reg_code r]
  | JMP_rel8 d => [0xEB; rel8 d]
  end.

Inductive kind :=
  | MoveImmediate | AddImmediate | Increment | Decrement
  | Push | Pop | ShortJump.

Definition kind_of (i : instr) : kind :=
  match i with
  | MOV_r64_imm32 _ _ => MoveImmediate
  | ADD_RAX_imm32 _ => AddImmediate
  | INC_r64 _ => Increment
  | DEC_r64 _ => Decrement
  | PUSH_r64 _ => Push
  | POP_r64 _ => Pop
  | JMP_rel8 _ => ShortJump
  end.

(** The instructions the comments of [generate_x64_payload] name; the
    displacement of the jump is the one its byte [0xE9] holds. *)
Definition program : list instr :=
  [MOV_r64_imm32 RAX 1; ADD_RAX_imm32 100; INC_r64 RAX; DEC_r64 RAX;
   PUSH_r64 RAX; POP_r64 RAX; JMP_rel8 (-23)].

End X64.

Module ARM.

Inductive cond := EQ | NE | AL.

Definition cond_code (c : cond) : Z :=
  match c with EQ => 0 | NE => 1 | AL => 14 end.

(** Registers r0 to r15 by number. *)
Inductive instr :=
  | MOV_imm (c : cond) (rd : Z) (imm8 : Z)
  | ADD_imm (c : cond) (rd rn : Z) (imm8 : Z)
  | CMP_imm (c : cond) (rn : Z) (imm8 : Z)
  | B (c : cond) (offset : Z).

(** A data-processing instruction with an immediate operand that is not
    rotated: condition, 001, opcode, S, Rn, Rd, 0000, imm8. *)
Definition data_imm (c : cond) (opcode s rn rd imm8 : Z) : Z :=
  Z.lor (Z.shiftl (cond_code c) 28)
    (Z.lor (Z.shiftl 1 25)
       (Z.lor (Z.shiftl opcode 21)
          (Z.lor (Z.shiftl s 20)
             (Z.lor (Z.shiftl rn 16) (Z.lor (Z.shiftl rd 12) imm8))))).

(** The 32-bit instruction word; a branch is condition, 101, L = 0 and the
    signed word offset in 24 bits. *)
Definition encode_word (i : instr) : Z :=
  match i with
  | MOV_imm c rd imm8 => data_imm c 13 0 0 rd imm8
  | ADD_imm c rd rn imm8 => data_imm c 4 0 rn rd imm8
  | CMP_imm c rn imm8 => data_imm c 10 1 rn 0 imm8
  | B c offset =>
      Z.lor (Z.shiftl (cond_code c) 28)
        (Z.lor (Z.shiftl 5 25) (Z.land offset 0xFFFFFF))
  end.

(** The word in memory, little-endian. *)
Definition encode (i : instr) : list Z := le32 (encode_word i).

Inductive kind :=
  | MoveImmediate | AddImmediate | CompareImmediate
  | BranchNotEqual (negative : bool)
  | OtherBranch.

Definition kind_of (i : instr) : kind :=
  match i with
  | MOV_imm _ _ _ => MoveImmediate
  | ADD_imm _ _ _ _ => AddImmediate
  | CMP_imm _ _ _ => CompareImmediate
  | B NE offset => BranchNotEqual (offset <? 0)
  | B _ _ => OtherBranch
  end.

(** The instructions the comments of [generate_arm_payload] name; the
    offset of the branch is the one its bytes [F9 FF FF] hold. *)
Definition program : list instr :=
  [MOV_imm AL 0 1; ADD_imm AL 0 0 100; CMP_imm AL 0 50; B NE (-7)].

End ARM.

(** ** Two directories to run the script in *)

(** An empty directory where every write succeeds. *)
Definition empty_dir : World := mkWorld ∅ (fun _ => NoFault) [] [] ∅.

(** A directory that holds an old [x86_test.bin] and a file of the user's,
    with arguments on the command line. *)
Definition used_dir : World :=
  mkWorld (<["x86_test.bin" := [0xFF; 0xFF]]> {["notes.txt" := [0x68; 0x69]]})
    (fun _ => NoFault) [EvPrint "$ python3 generate_test_payload.py -v"]
    ["generate_test_payload.py"; "-v"] {["HOME" := "/root"]}.

(** A read-only directory: every [open] for writing is refused. *)
Definition read_only_dir : World :=
  mkWorld {["notes.txt" := [0x68; 0x69]]} (fun _ => OpenFails) [] [] ∅.

(** A directory whose disk is full after five bytes of [x64_test.bin]. *)
Definition full_disk_dir : World :=
  mkWorld {["notes.txt" := [0x68; 0x69]]}
    (fun name => if decide (name = "x64_test.bin") then WriteFails 5 else NoFault)
    [] [] ∅.

(** ** The four payloads together *)

(** What one generator is about: the line that announces it, the file, the
    bytes and the line that reports them. *)
Record job := mkJob {
  job_banner : string;
  job_file : string;
  job_data : list Z;
  job_status : string
}.

Definition run_job (j : job) : Py unit :=
  attempt (job_banner j) (job_file j) (job_data j) (job_status j).

Fixpoint run_jobs (js : list job) : Py unit :=
  match js with
  | [] => ret tt
  | j :: js' => run_job j ;; run_jobs js'
  end.

(** The four generators in the order [main] calls them. *)
Definition jobs : list job :=
  [mkJob "Generating x86 test payload..." "x86_test.bin" x86_bytes
     "x86 payload generated (17 bytes)";
   mkJob "Generating ARM test payload..." "arm_test.bin" arm_bytes
     "ARM payload generated (16 bytes)";
   mkJob "Generating x64 test payload..." "x64_test.bin" x64_bytes
     "x64 payload generated (23 bytes)";
   mkJob "Generating simple test payload..." "test_payload.bin" simple_bytes
     "Simple payload generated (8 bytes)"].

(** [main] with each generator replaced by its outcome. *)
Definition main_summary : Py unit :=
  print (str_mul "=" 50) ;;
  print "MyOS VM System - Test Payload Generator" ;;
  print (str_mul "=" 50) ;;
  run_jobs jobs ;;
  print (newline +:+ str_mul "=" 50) ;;
  print "All test payloads generated successfully!" ;;
  print (str_mul "=" 50) ;;
  print "Generated files:" ;;
  print "- x86_test.bin  (x86 architecture)" ;;
  print "- arm_test.bin  (ARM architecture)" ;;
  print "- x64_test.bin  (x64 architecture)" ;;
  print "- test_payload.bin (simple test)" ;;
  print (str_mul "=" 50).

Definition target (j : job) : string * list Z := (job_file j, job_data j).

(** The payload files in the order [main] generates them, each with the
    contents its generator writes. *)
Definition targets : list (string * list Z) := target <$> jobs.

Definition payload_files : list string := job_file <$> jobs.

(** Each generator with the file it is to write and the word its status
    line starts with. *)
Definition generators : list (string * string * Py unit) :=
  [("x86", "x86_test.bin", generate_x86_payload);
   ("ARM", "arm_test.bin", generate_arm_payload);
   ("x64", "x64_test.bin", generate_x64_payload);
   ("Simple", "test_payload.bin", generate_simple_payload)].

(** The status line of a generator that reports [n] bytes. *)
Definition status_line (label : string) (n : nat) : string :=
  label +:+ " payload generated (" +:+ str n +:+ " bytes)".

(** The operating system lets every payload file be opened and written. *)
Definition all_writes_succeed (w : World) : Prop :=
  Forall (fun name => faults w name = NoFault) payload_files.

(** The directory after the files of [js] were written one after the other. *)
Definition install (js : list job)
    (fs : gmap string (list Z)) : gmap string (list Z) :=
  foldl (fun m j => <[job_file j := job_data j]> m) fs js.

(** The sum of the sizes of the files of a directory, in bytes. *)
Definition total_size (fs : gmap string (list Z)) : nat :=
  map_fold (fun _ bs n => (length bs + n)%nat) 0%nat fs.

(** The events between two states of the world. *)
Definition events_since (w w' : World) : list event :=
  drop (length (events w)) (events w').

(** What a generator does when nothing fails, and what it does until the
    operating system fails it. *)
Definition job_events (j : job) : list event :=
  [EvPrint (job_banner j); EvOpen (job_file j);
   EvWrite (job_file j) (job_data j); EvClose (job_file j);
   EvPrint (job_status j)].

Definition failed_events (j : job) (f : io_fault) : list event :=
  match f with
  | WriteFails n =>
      [EvPrint (job_banner j); EvOpen (job_file j);
       EvWrite (job_file j) (take n (job_data j)); EvClose (job_file j)]
  | _ => [EvPrint (job_banner j); EvOpen (job_file j)]
  end.

Definition failed_files (j : job) (f : io_fault)
    (fs : gmap string (list Z)) : gmap string (list Z) :=
  match f with
  | WriteFails n => <[job_file j := take n (job_data j)]> fs
  | _ => fs
  end.

(** What [main] prints before and after the generators. *)
Definition prologue : list event :=
  [EvPrint (str_mul "=" 50);
   EvPrint "MyOS VM System - Test Payload Generator";
   EvPrint (str_mul "=" 50)].

Definition epilogue : list event :=
  [EvPrint (newline +:+ str_mul "=" 50);
   EvPrint "All test payloads generated successfully!";
   EvPrint (str_mul "=" 50);
   EvPrint "Generated files:";
   EvPrint "- x86_test.bin  (x86 architecture)";
   EvPrint "- arm_test.bin  (ARM architecture)";
   EvPrint "- x64_test.bin  (x64 architecture)";
   EvPrint "- test_payload.bin (simple test)";
   EvPrint (str_mul "=" 50)].

(** ** Further observations of a run *)

(** The files a sequence of events closed. *)
Definition closed (es : list event) : list string :=
  omap (fun e => match e with EvClose n => Some n | _ => None end) es.

(** Every file of the directory holds integers of [range(256)] only. *)
Definition bytes_only (fs : gmap string (list Z)) : Prop :=
  map_Forall (fun _ bs => Forall (fun b => is_byte b = true) bs) fs.

(** The lines [main] prints when every generator succeeds. *)
Definition main_output : list string :=
  [str_mul "=" 50;
   "MyOS VM System - Test Payload Generator";
   str_mul "=" 50;
   "Generating x86 test payload...";
   "x86 payload generated (17 bytes)";
   "Generating ARM test payload...";
   "ARM payload generated (16 bytes)";
   "Generating x64 test payload...";
   "x64 payload generated (23 bytes)";
   "Generating simple test payload...";
   "Simple payload generated (8 bytes)";
   newline +:+ str_mul "=" 50;
   "All test payloads generated successfully!";
   str_mul "=" 50;
   "Generated files:";
   "- x86_test.bin  (x86 architecture)";
   "- arm_test.bin  (ARM architecture)";
   "- x64_test.bin  (x64 architecture)";
   "- test_payload.bin (simple test)";
   str_mul "=" 50].

(** The same world with the operating system failing other files. *)
Definition with_faults (f : string -> io_fault) (w : World) : World :=
  mkWorld (files w) f (events w) (argv w) (environ w).

(** A directory where [arm_test.bin] cannot be opened for writing. *)
Definition locked_arm_dir : World :=
  mkWorld (<["arm_test.bin" := [0x00]]> {["notes.txt" := [0x68; 0x69]]})
    (fun name => if decide (name = "arm_test.bin") then OpenFails else NoFault)
    [] [] ∅.

(** * Proofs *)

(** ** The generators, one by one *)

Lemma after_after w fs1 es1 fs2 es2 :
  after (after w fs1 es1) fs2 es2 = after w fs2 (es1 ++ es2).
Proof. unfold after; cbn. by rewrite <- app_assoc. Qed.

Lemma truncate_then_write (name : string) (data : list Z)
    (m : gmap string (list Z)) :
  <[name := default [] (<[name := []]> m !! name) ++ data]> (<[name := []]> m)
  = <[name := data]> m.
Proof. by rewrite lookup_insert_eq, insert_insert_eq. Qed.

Ltac run_generator :=
  unfold attempt, after;
  unfold generate_x86_payload, generate_arm_payload, generate_x64_payload,
    generate_simple_payload, with_as, open_wb, write, close, print, bind,
    extend, append, bytearray_of;
  match goal with
  | |- context [faults ?w ?name] =>
      let Hf := fresh "Hf" in
      destruct (faults w name) eqn:Hf; cbn; repeat (rewrite Hf; cbn)
  end;
  unfold log, set_files; cbn [files faults events argv environ];
  repeat match goal with
    | |- context [str ?n] =>
        let s := eval vm_compute in (str n) in
        replace (str n) with s by (vm_compute; reflexivity)
    end;
  rewrite ?truncate_then_write, <- ?app_assoc; reflexivity.

Lemma generate_x86_payload_eq w :
  generate_x86_payload w =
  attempt "Generating x86 test payload..." "x86_test.bin" x86_bytes
    "x86 payload generated (17 bytes)" w.
Proof. run_generator. Qed.

Lemma generate_arm_payload_eq w :
  generate_arm_payload w =
  attempt "Generating ARM test payload..." "arm_test.bin" arm_bytes
    "ARM payload generated (16 bytes)" w.
Proof. run_generator. Qed.

Lemma generate_x64_payload_eq w :
  generate_x64_payload w =
  attempt "Generating x64 test payload..." "x64_test.bin" x64_bytes
    "x64 payload generated (23 bytes)" w.
Proof. run_generator. Qed.

Lemma generate_simple_payload_eq w :
  generate_simple_payload w =
  attempt "Generating simple test payload..." "test_payload.bin" simple_bytes
    "Simple payload generated (8 bytes)" w.
Proof. run_generator. Qed.

Lemma attempt_ok banner name data status w :
  faults w name = NoFault ->
  attempt banner name data status w =
  (Return tt,
   after w (<[name := data]> (files w))
     [EvPrint banner; EvOpen name; EvWrite name data; EvClose name;
      EvPrint status]).
Proof. intros Hf. unfold attempt. by rewrite Hf. Qed.

Lemma attempt_returns_inv banner name data status w a w' :
  attempt banner name data status w = (Return a, w') ->
  faults w name = NoFault.
Proof. unfold attempt. by destruct (faults w name). Qed.

(** The script itself, run on the sample directories. *)
Example generate_simple_payload_in_empty_dir :
  generate_simple_payload empty_dir =
  (Return tt,
   mkWorld {["test_payload.bin" := [1; 2; 3; 4; 5; 6; 7; 8]]}
     (fun _ => NoFault)
     [EvPrint "Generating simple test payload...";
      EvOpen "test_payload.bin";
      EvWrite "test_payload.bin" [1; 2; 3; 4; 5; 6; 7; 8];
      EvClose "test_payload.bin";
      EvPrint "Simple payload generated (8 bytes)"]
     [] ∅).
Proof. vm_compute. reflexivity. Qed.

Example generate_x86_payload_over_old_file :
  files (generate_x86_payload used_dir).2 =
  <["x86_test.bin" := x86_bytes]> {["notes.txt" := [0x68; 0x69]]}.
Proof. vm_compute. reflexivity. Qed.

Example generate_x86_payload_in_read_only_dir :
  generate_x86_payload read_only_dir =
  (Raise (OSError "x86_test.bin"),
   mkWorld {["notes.txt" := [0x68; 0x69]]} (fun _ => OpenFails)
     [EvPrint "Generating x86 test payload..."; EvOpen "x86_test.bin"]
     [] ∅).
Proof. vm_compute. reflexivity. Qed.

Example generate_x64_payload_on_full_disk :
  (generate_x64_payload full_disk_dir).1 = Raise (OSError "x64_test.bin") /\
  files (generate_x64_payload full_disk_dir).2 !! "x64_test.bin"
  = Some [0x48; 0xC7; 0xC0; 0x01; 0x00].
Proof. split; vm_compute; reflexivity. Qed.

(** The bytes are the encodings of the instructions of the comments. *)
Example x86_program_encoding : concat (map X86.encode X86.program) = x86_bytes.
Proof. reflexivity. Qed.

Example x64_program_encoding : concat (map X64.encode X64.program) = x64_bytes.
Proof. reflexivity. Qed.

Example arm_program_encoding : concat (map ARM.encode ARM.program) = arm_bytes.
Proof. reflexivity. Qed.

(** The displacement bytes of the two jumps and of the branch, as signed
    numbers: 16 and 23 bytes back, and 7 words back. *)
Example jump_displacements :
  rel8 (-16) = 0xF0 /\ rel8 (-23) = 0xE9 /\ Z.land (-7) 0xFFFFFF = 0xFFFFF9.
Proof. repeat split. Qed.

(** ** Runs of several generators *)

Lemma run_job_ok j w :
  faults w (job_file j) = NoFault ->
  run_job j w =
  (Return tt, after w (<[job_file j := job_data j]> (files w)) (job_events j)).
Proof. apply attempt_ok. Qed.

Lemma run_job_fails j w :
  faults w (job_file j) <> NoFault ->
  run_job j w =
  (Raise (OSError (job_file j)),
   after w (failed_files j (faults w (job_file j)) (files w))
     (failed_events j (faults w (job_file j)))).
Proof.
  intros Hf. unfold run_job, attempt, failed_files, failed_events.
  by destruct (faults w (job_file j)).
Qed.

Lemma run_jobs_ok js : forall w,
  Forall (fun j => faults w (job_file j) = NoFault) js ->
  run_jobs js w =
  (Return tt, after w (install js (files w)) (concat (job_events <$> js))).
Proof.
  induction js as [|j js IH]; intros w Hall.
  - cbn. unfold ret, after. rewrite app_nil_r. by destruct w.
  - apply Forall_cons in Hall as [Hj Hjs].
    cbn [run_jobs]. unfold bind. rewrite (run_job_ok _ _ Hj).
    rewrite IH by exact Hjs. by rewrite after_after.
Qed.

Lemma run_jobs_fails done : forall j rest w,
  Forall (fun d => faults w (job_file d) = NoFault) done ->
  faults w (job_file j) <> NoFault ->
  run_jobs (done ++ j :: rest) w =
  (Raise (OSError (job_file j)),
   after w (failed_files j (faults w (job_file j)) (install done (files w)))
     (concat (job_events <$> done) ++ failed_events j (faults w (job_file j)))).
Proof.
  induction done as [|d done IH]; intros j rest w Hall Hj.
  - cbn [app run_jobs]. unfold bind. by rewrite (run_job_fails _ _ Hj).
  - apply Forall_cons in Hall as [Hd Hdone].
    cbn [app run_jobs]. unfold bind. rewrite (run_job_ok _ _ Hd).
    rewrite (IH j rest) by assumption. rewrite after_after.
    cbn. by rewrite <- ?app_assoc.
Qed.

Lemma run_jobs_returns_inv js : forall w a w',
  run_jobs js w = (Return a, w') ->
  Forall (fun j => faults w (job_file j) = NoFault) js.
Proof.
  induction js as [|j js IH]; intros w a w' Hrun; [constructor|].
  cbn [run_jobs] in Hrun. unfold bind in Hrun.
  destruct (run_job j w) as [[[]|e] w1] eqn:Hj; [|discriminate].
  pose proof (attempt_returns_inv _ _ _ _ _ _ _ Hj) as Hf.
  rewrite (run_job_ok _ _ Hf) in Hj. injection Hj as <-.
  constructor; [exact Hf|]. exact (IH _ _ _ Hrun).
Qed.

(** ** The entry routine *)

Lemma main_eq w : main w = main_summary w.
Proof.
  unfold main, main_summary, jobs, run_jobs, run_job, bind, print, ret.
  cbn -[generate_x86_payload generate_arm_payload generate_x64_payload
        generate_simple_payload attempt str_mul].
  rewrite generate_x86_payload_eq.
  destruct (attempt _ "x86_test.bin" _ _ _) as [[[]|e] w1]; [|reflexivity].
  rewrite generate_arm_payload_eq.
  destruct (attempt _ "arm_test.bin" _ _ _) as [[[]|e] w2]; [|reflexivity].
  rewrite generate_x64_payload_eq.
  destruct (attempt _ "x64_test.bin" _ _ _) as [[[]|e] w3]; [|reflexivity].
  rewrite generate_simple_payload_eq.
  destruct (attempt _ "test_payload.bin" _ _ _) as [[[]|e] w4]; reflexivity.
Qed.

Lemma bind_print {B} s (k : unit -> Py B) w :
  bind (print s) k w = k tt (log (EvPrint s) w).
Proof. reflexivity. Qed.

Lemma log_after e w fs es :
  log e (after w fs es) = after w fs (es ++ [e]).
Proof. unfold log, after. cbn. by rewrite <- app_assoc. Qed.

Lemma after_refl w : after w (files w) [] = w.
Proof. unfold after. rewrite app_nil_r. by destruct w. Qed.

Lemma main_run w :
  main w =
  match run_jobs jobs (after w (files w) prologue) with
  | (Return _, w') => (Return tt, after w' (files w') epilogue)
  | (Raise e, w') => (Raise e, w')
  end.
Proof.
  rewrite main_eq. unfold main_summary.
  rewrite <- (after_refl w) at 1. rewrite !bind_print, !log_after.
  unfold bind at 1.
  change (after w (files w) _) with (after w (files w) prologue).
  destruct (run_jobs jobs _) as [[[]|e] w']; [|reflexivity].
  rewrite <- (after_refl w') at 1. rewrite !bind_print, !log_after.
  unfold print. by rewrite log_after.
Qed.

Lemma all_writes_succeed_jobs w :
  all_writes_succeed w <->
  Forall (fun j => faults w (job_file j) = NoFault) jobs.
Proof. unfold all_writes_succeed, payload_files. by rewrite Forall_fmap. Qed.

Lemma main_ok w :
  all_writes_succeed w ->
  main w =
  (Return tt,
   after w (install jobs (files w))
     (prologue ++ concat (job_events <$> jobs) ++ epilogue)).
Proof.
  intros Hall. apply all_writes_succeed_jobs in Hall.
  rewrite main_run, run_jobs_ok by exact Hall.
  by rewrite !after_after.
Qed.

Lemma main_fails w done j rest :
  jobs = done ++ j :: rest ->
  Forall (fun d => faults w (job_file d) = NoFault) done ->
  faults w (job_file j) <> NoFault ->
  main w =
  (Raise (OSError (job_file j)),
   after w (failed_files j (faults w (job_file j)) (install done (files w)))
     (prologue ++ concat (job_events <$> done)
      ++ failed_events j (faults w (job_file j)))).
Proof.
  intros Hjobs Hdone Hj.
  rewrite main_run, Hjobs, run_jobs_fails by assumption.
  by rewrite after_after.
Qed.

Lemma main_returns_inv w a w' :
  main w = (Return a, w') -> all_writes_succeed w.
Proof.
  rewrite main_run. intros Hrun. apply all_writes_succeed_jobs.
  destruct (run_jobs jobs _) as [[[]|e] w1] eqn:Hjobs; [|discriminate].
  exact (run_jobs_returns_inv _ _ _ _ Hjobs).
Qed.

(** ** The directory after a run *)

Lemma install_cons j js (fs : gmap string (list Z)) :
  install (j :: js) fs = install js (<[job_file j := job_data j]> fs).
Proof. reflexivity. Qed.

Lemma lookup_install_other js : forall (fs : gmap string (list Z)) name,
  name ∉ job_file <$> js -> install js fs !! name = fs !! name.
Proof.
  induction js as [|j js IH]; intros fs name Hnot; [done|].
  apply not_elem_of_cons in Hnot as [Hne Hnot].
  rewrite install_cons, IH by exact Hnot. by rewrite lookup_insert_ne.
Qed.

Lemma lookup_install js : forall (fs : gmap string (list Z)) j,
  NoDup (job_file <$> js) -> j ∈ js ->
  install js fs !! job_file j = Some (job_data j).
Proof.
  induction js as [|j' js IH]; intros fs j Hnd Hin.
  - by apply elem_of_nil in Hin.
  - apply NoDup_cons in Hnd as [Hfresh Hnd].
    apply elem_of_cons in Hin as [->|Hin].
    + rewrite install_cons, lookup_install_other by exact Hfresh.
      by rewrite lookup_insert_eq.
    + rewrite install_cons. by apply IH.
Qed.

Lemma install_install js : forall (fs : gmap string (list Z)),
  NoDup (job_file <$> js) -> install js (install js fs) = install js fs.
Proof.
  intros fs Hnd. apply map_eq. intros name.
  destruct (decide (name ∈ job_file <$> js)) as [Hin|Hnot].
  - apply list_elem_of_fmap in Hin as (j & -> & Hin).
    by rewrite !lookup_install.
  - by rewrite !lookup_install_other.
Qed.

Lemma payload_files_NoDup : NoDup payload_files.
Proof. apply (bool_decide_unpack _). vm_compute. reflexivity. Qed.

Lemma files_after w fs es : files (after w fs es) = fs.
Proof. reflexivity. Qed.

Lemma events_since_after w fs es : events_since w (after w fs es) = es.
Proof. unfold events_since, after. cbn. by rewrite drop_app_length. Qed.

(** ** The contents of the four files *)

(** C1, as the specification states it, fails: in an empty directory where
    the write succeeds, [generate_x86_payload] leaves an [x86_test.bin] of
    17 bytes, not of 23. *)
Lemma x86_payload_is_not_23_bytes :
  faults empty_dir "x86_test.bin" = NoFault /\
  exists w' bs,
    generate_x86_payload empty_dir = (Return tt, w') /\
    files w' !! "x86_test.bin" = Some bs /\
    length bs = 17%nat /\ length bs <> 23%nat.
Proof.
  split; [reflexivity|].
  rewrite generate_x86_payload_eq. eexists _, x86_bytes.
  split; [reflexivity|]. split; [|by vm_compute].
  apply lookup_insert_eq.
Qed.

(** C1, amended: when the operating system lets [x86_test.bin] be written,
    [generate_x86_payload] returns and the file holds a fixed sequence of
    exactly 17 bytes, which encodes, in order, a load immediate, an add
    immediate, an increment, a decrement, a stack push, a stack pop, a no-op
    and a short backward relative jump. *)
Theorem x86_payload_written w :
  faults w "x86_test.bin" = NoFault ->
  exists w',
    generate_x86_payload w = (Return tt, w') /\
    files w' !! "x86_test.bin" = Some x86_bytes /\
    length x86_bytes = 17%nat /\
    x86_bytes = concat (X86.encode <$> X86.program) /\
    X86.kind_of <$> X86.program =
      [X86.LoadImmediate; X86.AddImmediate; X86.Increment; X86.Decrement;
       X86.StackPush; X86.StackPop; X86.NoOp; X86.ShortRelativeJump true].
Proof.
  intros Hf. rewrite generate_x86_payload_eq, attempt_ok by exact Hf.
  eexists. split; [reflexivity|]. split; [apply lookup_insert_eq|].
  repeat split.
Qed.

Lemma x86_payload_written_witness :
  faults used_dir "x86_test.bin" = NoFault /\
  exists w',
    generate_x86_payload used_dir = (Return tt, w') /\
    files w' !! "x86_test.bin" = Some x86_bytes /\
    length x86_bytes = 17%nat /\
    x86_bytes = concat (X86.encode <$> X86.program) /\
    X86.kind_of <$> X86.program =
      [X86.LoadImmediate; X86.AddImmediate; X86.Increment; X86.Decrement;
       X86.StackPush; X86.StackPop; X86.NoOp; X86.ShortRelativeJump true].
Proof.
  split; [reflexivity|]. apply (x86_payload_written used_dir). reflexivity.
Defined.

(** C2, as the specification states it, fails: in an empty directory where
    the write succeeds, [generate_x64_payload] leaves an [x64_test.bin] of
    23 bytes, not of 26. *)
Lemma x64_payload_is_not_26_bytes :
  faults empty_dir "x64_test.bin" = NoFault /\
  exists w' bs,
    generate_x64_payload empty_dir = (Return tt, w') /\
    files w' !! "x64_test.bin" = Some bs /\
    length bs = 23%nat /\ length bs <> 26%nat.
Proof.
  split; [reflexivity|].
  rewrite generate_x64_payload_eq. eexists _, x64_bytes.
  split; [reflexivity|]. split; [|by vm_compute].
  apply lookup_insert_eq.
Qed.

(** C2, amended: when the operating system lets [x64_test.bin] be written,
    [generate_x64_payload] returns and the file holds a fixed sequence of
    exactly 23 bytes, which encodes, in order, a move immediate, an add
    immediate, an increment, a decrement, a push, a pop and a short jump
    with a fixed displacement. *)
Theorem x64_payload_written w :
  faults w "x64_test.bin" = NoFault ->
  exists w',
    generate_x64_payload w = (Return tt, w') /\
    files w' !! "x64_test.bin" = Some x64_bytes /\
    length x64_bytes = 23%nat /\
    x64_bytes = concat (X64.encode <$> X64.program) /\
    X64.kind_of <$> X64.program =
      [X64.MoveImmediate; X64.AddImmediate; X64.Increment; X64.Decrement;
       X64.Push; X64.Pop; X64.ShortJump].
Proof.
  intros Hf. rewrite generate_x64_payload_eq, attempt_ok by exact Hf.
  eexists. split; [reflexivity|]. split; [apply lookup_insert_eq|].
  repeat split.
Qed.

Lemma x64_payload_written_witness :
  faults used_dir "x64_test.bin" = NoFault /\
  exists w',
    generate_x64_payload used_dir = (Return tt, w') /\
    files w' !! "x64_test.bin" = Some x64_bytes /\
    length x64_bytes = 23%nat /\
    x64_bytes = concat (X64.encode <$> X64.program) /\
    X64.kind_of <$> X64.program =
      [X64.MoveImmediate; X64.AddImmediate; X64.Increment; X64.Decrement;
       X64.Push; X64.Pop; X64.ShortJump].
Proof.
  split; [reflexivity|]. apply (x64_payload_written used_dir). reflexivity.
Defined.

(** C4: when the operating system lets [arm_test.bin] be written,
    [generate_arm_payload] returns and the file holds a fixed sequence of
    exactly 16 bytes: four 32-bit ARM instruction words, little-endian,
    which are a move immediate, an add immediate, a compare immediate and a
    branch-not-equal with a negative displacement. *)
Theorem arm_payload_written w :
  faults w "arm_test.bin" = NoFault ->
  exists w',
    generate_arm_payload w = (Return tt, w') /\
    files w' !! "arm_test.bin" = Some arm_bytes /\
    length arm_bytes = 16%nat /\
    arm_bytes = concat (le32 <$> (ARM.encode_word <$> ARM.program)) /\
    length ARM.program = 4%nat /\
    ARM.kind_of <$> ARM.program =
      [ARM.MoveImmediate; ARM.AddImmediate; ARM.CompareImmediate;
       ARM.BranchNotEqual true].
Proof.
  intros Hf. rewrite generate_arm_payload_eq, attempt_ok by exact Hf.
  eexists. split; [reflexivity|]. split; [apply lookup_insert_eq|].
  repeat split.
Qed.

Lemma arm_payload_written_witness :
  faults used_dir "arm_test.bin" = NoFault /\
  exists w',
    generate_arm_payload used_dir = (Return tt, w') /\
    files w' !! "arm_test.bin" = Some arm_bytes /\
    length arm_bytes = 16%nat /\
    arm_bytes = concat (le32 <$> (ARM.encode_word <$> ARM.program)) /\
    length ARM.program = 4%nat /\
    ARM.kind_of <$> ARM.program =
      [ARM.MoveImmediate; ARM.AddImmediate; ARM.CompareImmediate;
       ARM.BranchNotEqual true].
Proof.
  split; [reflexivity|]. apply (arm_payload_written used_dir). reflexivity.
Defined.

(** C5: when the operating system lets [test_payload.bin] be written,
    [generate_simple_payload] returns and the file holds exactly the eight
    bytes 01 02 03 04 05 06 07 08, in that order. *)
Theorem simple_payload_written w :
  faults w "test_payload.bin" = NoFault ->
  exists w',
    generate_simple_payload w = (Return tt, w') /\
    files w' !! "test_payload.bin" =
      Some [0x01; 0x02; 0x03; 0x04; 0x05; 0x06; 0x07; 0x08].
Proof.
  intros Hf. rewrite generate_simple_payload_eq, attempt_ok by exact Hf.
  eexists. split; [reflexivity|]. apply lookup_insert_eq.
Qed.

Lemma simple_payload_written_witness :
  faults used_dir "test_payload.bin" = NoFault /\
  exists w',
    generate_simple_payload used_dir = (Return tt, w') /\
    files w' !! "test_payload.bin" =
      Some [0x01; 0x02; 0x03; 0x04; 0x05; 0x06; 0x07; 0x08].
Proof.
  split; [reflexivity|]. apply (simple_payload_written used_dir). reflexivity.
Defined.

(** ** A whole run *)

(** C3, as the specification states it, fails: after [main] in an empty
    directory where every write succeeds, the sizes of the files add up to
    64 bytes, not to 73. *)
Lemma main_total_is_not_73_bytes :
  files empty_dir = ∅ /\ all_writes_succeed empty_dir /\
  exists w',
    main empty_dir = (Return tt, w') /\
    total_size (files w') = 64%nat /\ total_size (files w') <> 73%nat.
Proof.
  split; [reflexivity|]. split; [by repeat constructor|].
  rewrite main_ok by (by repeat constructor).
  eexists. split; [reflexivity|]. by vm_compute.
Qed.

(** C3, amended: after [main] in an empty directory where every write
    succeeds, exactly four files exist, named [x86_test.bin],
    [arm_test.bin], [x64_test.bin] and [test_payload.bin], of 17, 16, 23 and
    8 bytes, and the sum of their sizes is exactly 64 bytes. *)
Theorem main_in_empty_directory w :
  files w = ∅ ->
  all_writes_succeed w ->
  exists w',
    main w = (Return tt, w') /\
    dom (files w') =
      ({["x86_test.bin"; "arm_test.bin"; "x64_test.bin"; "test_payload.bin"]}
       : gset string) /\
    size (files w') = 4%nat /\
    length <$> files w' =
      ({["x86_test.bin" := 17%nat; "arm_test.bin" := 16%nat;
         "x64_test.bin" := 23%nat; "test_payload.bin" := 8%nat]}
       : gmap string nat) /\
    total_size (files w') = 64%nat.
Proof.
  intros Hempty Hall. rewrite main_ok by exact Hall.
  eexists. split; [reflexivity|]. cbn [files after]. rewrite Hempty.
  repeat split; by vm_compute.
Qed.

Lemma main_in_empty_directory_witness :
  files empty_dir = ∅ /\ all_writes_succeed empty_dir /\
  exists w',
    main empty_dir = (Return tt, w') /\
    dom (files w') =
      ({["x86_test.bin"; "arm_test.bin"; "x64_test.bin"; "test_payload.bin"]}
       : gset string) /\
    size (files w') = 4%nat /\
    length <$> files w' =
      ({["x86_test.bin" := 17%nat; "arm_test.bin" := 16%nat;
         "x64_test.bin" := 23%nat; "test_payload.bin" := 8%nat]}
       : gmap string nat) /\
    total_size (files w') = 64%nat.
Proof.
  split; [reflexivity|]. split; [by repeat constructor|].
  apply (main_in_empty_directory empty_dir); [reflexivity|].
  by repeat constructor.
Defined.

(** Either every job can be written, or there is a first one that cannot. *)
Lemma first_failure w js :
  Forall (fun j => faults w (job_file j) = NoFault) js \/
  exists done j rest,
    js = done ++ j :: rest /\
    Forall (fun d => faults w (job_file d) = NoFault) done /\
    faults w (job_file j) <> NoFault.
Proof.
  induction js as [|j js [IH|(done & j' & rest & -> & Hdone & Hj')]].
  - by left.
  - destruct (decide (faults w (job_file j) = NoFault)) as [Hj|Hj].
    + left. by constructor.
    + right. by exists [], j, js.
  - destruct (decide (faults w (job_file j) = NoFault)) as [Hj|Hj].
    + right. exists (j :: done), j', rest. repeat split; [|done]. by constructor.
    + right. by exists [], j, (done ++ j' :: rest).
Qed.

Lemma main_set_args w args env :
  main (set_args args env w) =
  ((main w).1, set_args args env (main w).2).
Proof.
  destruct (first_failure w jobs) as [Hall|(done & j & rest & Hjobs & Hdone & Hj)].
  - apply all_writes_succeed_jobs in Hall.
    rewrite !main_ok; [reflexivity|exact Hall|exact Hall].
  - rewrite !(main_fails _ done j rest); try assumption. reflexivity.
Qed.

(** C6: of two successful runs of [main] on the same directory, the second
    leaves every file with the contents the first left it with; it writes
    the same bytes to the same four files again. *)
Theorem main_idempotent w0 w1 w1' w2 :
  main w0 = (Return tt, w1) ->
  files w1' = files w1 ->
  main w1' = (Return tt, w2) ->
  files w2 = files w1 /\
  written (events_since w1' w2) = written (events_since w0 w1) /\
  Forall (fun t => files w1 !! t.1 = Some t.2 /\ files w2 !! t.1 = Some t.2)
    targets.
Proof.
  intros Hrun1 Hsame Hrun2.
  pose proof (main_returns_inv _ _ _ Hrun1) as Hall1.
  pose proof (main_returns_inv _ _ _ Hrun2) as Hall2.
  rewrite main_ok in Hrun1 by exact Hall1.
  rewrite main_ok in Hrun2 by exact Hall2.
  apply (f_equal snd) in Hrun1, Hrun2. cbn [snd] in Hrun1, Hrun2.
  subst w1 w2. rewrite !events_since_after, !files_after in *.
  assert (install jobs (files w1') = install jobs (files w0)) as ->.
  { rewrite Hsame. apply install_install, payload_files_NoDup. }
  split; [reflexivity|]. split; [reflexivity|].
  unfold targets. apply Forall_fmap, Forall_forall. intros j Hj.
  unfold compose, target. cbn [fst snd].
  by rewrite lookup_install by (exact payload_files_NoDup || exact Hj).
Qed.

Lemma main_idempotent_witness :
  let es := prologue ++ concat (job_events <$> jobs) ++ epilogue in
  let w1 := after used_dir (install jobs (files used_dir)) es in
  let w2 := after w1 (install jobs (files w1)) es in
  main used_dir = (Return tt, w1) /\
  main w1 = (Return tt, w2) /\
  files w2 = files w1.
Proof.
  intros es w1 w2.
  assert (all_writes_succeed used_dir) as Hall by (by repeat constructor).
  assert (all_writes_succeed w1) as Hall1 by (by repeat constructor).
  pose proof (main_ok used_dir Hall) as H1.
  pose proof (main_ok w1 Hall1) as H2.
  split; [exact H1|]. split; [exact H2|].
  exact (proj1 (main_idempotent used_dir w1 w1 w2 H1 eq_refl H2)).
Defined.

(** C7: whatever the directory holds and whatever the command line and the
    environment are, [main], when every write succeeds, opens and writes the
    four files in the order x86, ARM, x64, simple, and nothing else. *)
Theorem main_runs_generators_in_order w args env :
  all_writes_succeed w ->
  exists w',
    main w = (Return tt, w') /\
    opened (events_since w w') =
      ["x86_test.bin"; "arm_test.bin"; "x64_test.bin"; "test_payload.bin"] /\
    written (events_since w w') =
      [("x86_test.bin", x86_bytes); ("arm_test.bin", arm_bytes);
       ("x64_test.bin", x64_bytes); ("test_payload.bin", simple_bytes)] /\
    printed (events_since w w') =
      printed (prologue ++ concat (job_events <$> jobs) ++ epilogue) /\
    main (set_args args env w) = (Return tt, set_args args env w').
Proof.
  intros Hall. rewrite main_set_args, main_ok by exact Hall.
  eexists. split; [reflexivity|]. rewrite events_since_after.
  repeat split.
Qed.

Lemma main_runs_generators_in_order_witness :
  all_writes_succeed used_dir /\
  exists w',
    main used_dir = (Return tt, w') /\
    opened (events_since used_dir w') =
      ["x86_test.bin"; "arm_test.bin"; "x64_test.bin"; "test_payload.bin"] /\
    written (events_since used_dir w') =
      [("x86_test.bin", x86_bytes); ("arm_test.bin", arm_bytes);
       ("x64_test.bin", x64_bytes); ("test_payload.bin", simple_bytes)] /\
    printed (events_since used_dir w') =
      printed (prologue ++ concat (job_events <$> jobs) ++ epilogue) /\
    main (set_args ["generate_test_payload.py"; "--arch"; "arm"]
            {["PAYLOAD_DIR" := "/tmp"]} used_dir) =
      (Return tt,
       set_args ["generate_test_payload.py"; "--arch"; "arm"]
         {["PAYLOAD_DIR" := "/tmp"]} w').
Proof.
  split; [by repeat constructor|].
  apply (main_runs_generators_in_order used_dir). by repeat constructor.
Defined.

(** ** What the events of a run are about *)

Lemma opened_job_events js : opened (concat (job_events <$> js)) = job_file <$> js.
Proof.
  induction js as [|j js IH]; [done|].
  rewrite fmap_cons, concat_cons. unfold opened in *.
  rewrite omap_app, IH. reflexivity.
Qed.

Lemma written_job_events js : written (concat (job_events <$> js)) = target <$> js.
Proof.
  induction js as [|j js IH]; [done|].
  rewrite fmap_cons, concat_cons. unfold written in *.
  rewrite omap_app, IH. reflexivity.
Qed.

Lemma opened_failed_events j f : opened (failed_events j f) = [job_file j].
Proof. by destruct f. Qed.

Lemma written_failed_events j f :
  Forall (fun t => t.1 = job_file j) (written (failed_events j f)).
Proof. destruct f; repeat constructor. Qed.

Lemma printed_failed_events j f : printed (failed_events j f) = [job_banner j].
Proof. by destruct f. Qed.

Lemma lookup_failed_files_ne j f (fs : gmap string (list Z)) name :
  name <> job_file j -> failed_files j f fs !! name = fs !! name.
Proof. intros Hne. destruct f; cbn; [done..|]. by rewrite lookup_insert_ne. Qed.

(** The files of the jobs are pairwise distinct, so that in a run split at
    its failure the failing file is none of the others. *)
Lemma jobs_split_distinct done j rest :
  jobs = done ++ j :: rest ->
  NoDup (job_file <$> done) /\
  (job_file j ∉ (job_file <$> done)) /\
  (forall r, r ∈ rest ->
     job_file r <> job_file j /\ (job_file r ∉ (job_file <$> done))) /\
  (forall d, d ∈ done -> job_file d <> job_file j).
Proof.
  intros Hjobs. pose proof payload_files_NoDup as Hnd.
  unfold payload_files in Hnd. rewrite Hjobs, fmap_app, fmap_cons in Hnd.
  apply NoDup_app in Hnd as (Hdone & Hsep & Hrest).
  apply NoDup_cons in Hrest as [Hj Hrest].
  assert (forall d, d ∈ done -> job_file d <> job_file j) as Hdj.
  { intros d Hd Heq. apply (Hsep (job_file d)).
    - apply list_elem_of_fmap. eauto.
    - rewrite Heq. left. }
  split; [exact Hdone|]. split; [|split; [|exact Hdj]].
  - intros Hin. apply list_elem_of_fmap in Hin as (d & Heq & Hd).
    by apply (Hdj d Hd).
  - intros r Hr. split.
    + intros Heq. apply Hj. rewrite <- Heq. apply list_elem_of_fmap. eauto.
    + intros Hin. apply (Hsep _ Hin). right. apply list_elem_of_fmap. eauto.
Qed.

(** ** Failure *)

(** C8: when the operating system fails the write of one of the files,
    [main] raises that failure to its caller; the files of the generators
    before it hold their payloads, the files of the generators after it are
    as they were and were not even opened, and the last line printed is the
    failing generator's announcement.  In a read-only directory the failing
    file is the first, [x86_test.bin], and the directory is unchanged. *)
Theorem main_aborts_at_first_failure w done j rest :
  jobs = done ++ j :: rest ->
  Forall (fun d => faults w (job_file d) = NoFault) done ->
  faults w (job_file j) <> NoFault ->
  exists w',
    main w = (Raise (OSError (job_file j)), w') /\
    Forall (fun d => files w' !! job_file d = Some (job_data d)) done /\
    Forall (fun r => files w' !! job_file r = files w !! job_file r) rest /\
    opened (events_since w w') = job_file <$> (done ++ [j]) /\
    (exists partial,
       written (events_since w w') = (target <$> done) ++ partial /\
       Forall (fun t => t.1 = job_file j) partial) /\
    last (printed (events_since w w')) = Some (job_banner j) /\
    (forall other, other ∉ payload_files ->
       files w' !! other = files w !! other) /\
    (faults w (job_file j) = OpenFails ->
       files w' !! job_file j = files w !! job_file j) /\
    ((forall name, faults w name = OpenFails) ->
       job_file j = "x86_test.bin" /\ files w' = files w /\
       opened (events_since w w') = ["x86_test.bin"] /\
       written (events_since w w') = []).
Proof.
  intros Hjobs Hdone Hj.
  destruct (jobs_split_distinct _ _ _ Hjobs) as (Hnd & Hjd & Hrest & Hdj).
  rewrite (main_fails _ _ _ _ Hjobs Hdone Hj).
  eexists. split; [reflexivity|].
  rewrite events_since_after, files_after.
  set (f := faults w (job_file j)) in *.
  split; [|split; [|split; [|split; [|split; [|split; [|split]]]]]].
  - apply Forall_forall. intros d Hd.
    rewrite lookup_failed_files_ne by exact (Hdj d Hd).
    by apply lookup_install.
  - apply Forall_forall. intros r Hr. destruct (Hrest r Hr) as [Hrj Hrd].
    rewrite lookup_failed_files_ne by exact Hrj.
    by apply lookup_install_other.
  - unfold opened. rewrite !omap_app. fold (opened (concat (job_events <$> done))).
    fold (opened (failed_events j f)).
    by rewrite opened_job_events, opened_failed_events, fmap_app.
  - exists (written (failed_events j f)). split.
    + unfold written at 1. rewrite !omap_app.
      fold (written (concat (job_events <$> done))).
      fold (written (failed_events j f)).
      by rewrite written_job_events.
    + apply written_failed_events.
  - unfold printed. rewrite !app_assoc, omap_app.
    fold (printed (failed_events j f)).
    by rewrite printed_failed_events, last_snoc.
  - intros other Hother. unfold payload_files in Hother.
    rewrite Hjobs, fmap_app, fmap_cons in Hother.
    apply not_elem_of_app in Hother as [Hod Hother].
    apply not_elem_of_cons in Hother as [Hoj _].
    rewrite lookup_failed_files_ne by exact Hoj.
    by apply lookup_install_other.
  - intros Hopen. rewrite Hopen. cbn [failed_files].
    by apply lookup_install_other.
  - intros Hro. destruct done as [|d done'].
    + subst f. rewrite (Hro (job_file j)).
      cbn in Hjobs. injection Hjobs as <- _. repeat split.
    + apply Forall_cons in Hdone as [Hd _]. by rewrite Hro in Hd.
Qed.

Lemma main_aborts_at_first_failure_witness :
  let done := take 2 jobs in
  let j := mkJob "Generating x64 test payload..." "x64_test.bin" x64_bytes
             "x64 payload generated (23 bytes)" in
  let rest := drop 3 jobs in
  let w := full_disk_dir in
  jobs = done ++ j :: rest /\
  Forall (fun d => faults w (job_file d) = NoFault) done /\
  faults w (job_file j) <> NoFault /\
  exists w',
    main w = (Raise (OSError (job_file j)), w') /\
    Forall (fun d => files w' !! job_file d = Some (job_data d)) done /\
    Forall (fun r => files w' !! job_file r = files w !! job_file r) rest /\
    opened (events_since w w') = job_file <$> (done ++ [j]) /\
    (exists partial,
       written (events_since w w') = (target <$> done) ++ partial /\
       Forall (fun t => t.1 = job_file j) partial) /\
    last (printed (events_since w w')) = Some (job_banner j) /\
    (forall other, other ∉ payload_files ->
       files w' !! other = files w !! other) /\
    (faults w (job_file j) = OpenFails ->
       files w' !! job_file j = files w !! job_file j) /\
    ((forall name, faults w name = OpenFails) ->
       job_file j = "x86_test.bin" /\ files w' = files w /\
       opened (events_since w w') = ["x86_test.bin"] /\
       written (events_since w w') = []).
Proof.
  intros done j rest w.
  assert (jobs = done ++ j :: rest) as H1 by reflexivity.
  assert (Forall (fun d => faults w (job_file d) = NoFault) done) as H2
    by (by repeat constructor).
  assert (faults w (job_file j) <> NoFault) as H3 by (by vm_compute).
  split; [exact H1|]. split; [exact H2|]. split; [exact H3|].
  exact (main_aborts_at_first_failure w done j rest H1 H2 H3).
Defined.

(** In a read-only directory [main] fails at [x86_test.bin], the first file
    it opens, and leaves the directory as it was. *)
Example main_in_read_only_directory :
  exists w',
    main read_only_dir = (Raise (OSError "x86_test.bin"), w') /\
    files w' = files read_only_dir /\
    opened (events_since read_only_dir w') = ["x86_test.bin"].
Proof.
  rewrite (main_fails read_only_dir [] _ _ eq_refl) by done.
  eexists. split; [reflexivity|]. by rewrite events_since_after.
Qed.

(** ** One generator at a time *)

Lemma attempt_effect banner name data status w :
  exists es,
    events (attempt banner name data status w).2 = events w ++ es /\
    opened es = [name] /\
    Forall (fun e => forall n, event_file e = Some n -> n = name) es /\
    (attempt banner name data status w).1 =
      match faults w name with
      | NoFault => Return tt
      | _ => Raise (OSError name)
      end /\
    written es =
      match faults w name with
      | NoFault => [(name, data)]
      | OpenFails => []
      | WriteFails n => [(name, take n data)]
      end /\
    files (attempt banner name data status w).2 !! name =
      match faults w name with
      | NoFault => Some data
      | OpenFails => files w !! name
      | WriteFails n => Some (take n data)
      end /\
    (forall other, other <> name ->
       files (attempt banner name data status w).2 !! other
       = files w !! other).
Proof.
  unfold attempt.
  destruct (faults w name); eexists; (split; [reflexivity|]);
    (split; [reflexivity|]); cbn [fst snd files after];
    (split; [repeat constructor; cbn; congruence|]);
    (split; [reflexivity|]); (split; [reflexivity|]);
    (split; [by rewrite ?lookup_insert_eq|]);
    intros other Hne; by rewrite ?lookup_insert_ne.
Qed.

Lemma generators_inv label name g :
  (label, name, g) ∈ generators ->
  exists banner data,
    forall w,
      g w = attempt banner name data (status_line label (length data)) w.
Proof.
  unfold generators. rewrite !elem_of_cons, elem_of_nil.
  intros [H|[H|[H|[H|[]]]]]; injection H as -> -> ->.
  - exists "Generating x86 test payload...", x86_bytes. intros w.
    replace (status_line "x86" (length x86_bytes))
      with "x86 payload generated (17 bytes)" by (vm_compute; reflexivity).
    apply generate_x86_payload_eq.
  - exists "Generating ARM test payload...", arm_bytes. intros w.
    replace (status_line "ARM" (length arm_bytes))
      with "ARM payload generated (16 bytes)" by (vm_compute; reflexivity).
    apply generate_arm_payload_eq.
  - exists "Generating x64 test payload...", x64_bytes. intros w.
    replace (status_line "x64" (length x64_bytes))
      with "x64 payload generated (23 bytes)" by (vm_compute; reflexivity).
    apply generate_x64_payload_eq.
  - exists "Generating simple test payload...", simple_bytes. intros w.
    replace (status_line "Simple" (length simple_bytes))
      with "Simple payload generated (8 bytes)" by (vm_compute; reflexivity).
    apply generate_simple_payload_eq.
Qed.

Lemma generators_inv_target label name g :
  (label, name, g) ∈ generators ->
  exists banner data,
    (name, data) ∈ targets /\
    forall w,
      g w = attempt banner name data (status_line label (length data)) w.
Proof.
  unfold generators. rewrite !elem_of_cons, elem_of_nil.
  intros [H|[H|[H|[H|[]]]]]; injection H as -> -> ->.
  - exists "Generating x86 test payload...", x86_bytes.
    split; [left|]. intros w.
    replace (status_line "x86" (length x86_bytes))
      with "x86 payload generated (17 bytes)" by (vm_compute; reflexivity).
    apply generate_x86_payload_eq.
  - exists "Generating ARM test payload...", arm_bytes.
    split; [right; left|]. intros w.
    replace (status_line "ARM" (length arm_bytes))
      with "ARM payload generated (16 bytes)" by (vm_compute; reflexivity).
    apply generate_arm_payload_eq.
  - exists "Generating x64 test payload...", x64_bytes.
    split; [do 2 right; left|]. intros w.
    replace (status_line "x64" (length x64_bytes))
      with "x64 payload generated (23 bytes)" by (vm_compute; reflexivity).
    apply generate_x64_payload_eq.
  - exists "Generating simple test payload...", simple_bytes.
    split; [do 3 right; left|]. intros w.
    replace (status_line "Simple" (length simple_bytes))
      with "Simple payload generated (8 bytes)" by (vm_compute; reflexivity).
    apply generate_simple_payload_eq.
Qed.

(** The script itself, run after another generator: [generate_arm_payload]
    writes its sixteen bytes to [arm_test.bin] and to no other file, and
    the [x86_test.bin] of the generator before it is as that one left it. *)
Example generate_arm_payload_after_x86 :
  let w := (generate_x86_payload used_dir).2 in
  (generate_arm_payload w).1 = Return tt /\
  written (events_since w (generate_arm_payload w).2)
    = [("arm_test.bin", arm_bytes)] /\
  files (generate_arm_payload w).2 =
    {["arm_test.bin" := arm_bytes; "x86_test.bin" := x86_bytes;
      "notes.txt" := [0x68; 0x69]]}.
Proof. repeat split; vm_compute; reflexivity. Qed.

(** C9: a generator writes exactly one file, its own.  It opens that file
    and no other, and every event of it that is about a file is about that
    file.  When the operating system lets the file be written, the generator
    returns, the one thing it writes is its payload, and the file holds the
    payload; when the write is cut short, it raises and the file holds the
    bytes that got through; when [open] is refused, it raises, nothing is
    written and the file is as it was.  In every case every other file of
    the directory, the payload files of the other generators among them,
    holds afterwards what it held before. *)
Theorem generators_write_only_their_file label name g w :
  (label, name, g) ∈ generators ->
  exists es data,
    (name, data) ∈ targets /\
    events (g w).2 = events w ++ es /\
    opened es = [name] /\
    Forall (fun e => forall n, event_file e = Some n -> n = name) es /\
    (g w).1 =
      match faults w name with
      | NoFault => Return tt
      | _ => Raise (OSError name)
      end /\
    written es =
      match faults w name with
      | NoFault => [(name, data)]
      | OpenFails => []
      | WriteFails n => [(name, take n data)]
      end /\
    files (g w).2 !! name =
      match faults w name with
      | NoFault => Some data
      | OpenFails => files w !! name
      | WriteFails n => Some (take n data)
      end /\
    (forall other, other <> name ->
       files (g w).2 !! other = files w !! other) /\
    (forall j, j ∈ jobs -> job_file j <> name ->
       files w !! job_file j = Some (job_data j) ->
       files (g w).2 !! job_file j = Some (job_data j)).
Proof.
  intros Hg.
  destruct (generators_inv_target _ _ _ Hg) as (banner & data & Hin & Heq).
  rewrite Heq.
  destruct (attempt_effect banner name data (status_line label (length data)) w)
    as (es & Hev & Hop & Hfile & Hres & Hwr & Hown & Hframe).
  exists es, data. repeat split; try assumption.
  intros j _ Hne Hj. by rewrite Hframe.
Qed.

Lemma generators_write_only_their_file_witness :
  let w := (generate_x86_payload used_dir).2 in
  ("ARM", "arm_test.bin", generate_arm_payload) ∈ generators /\
  faults w "arm_test.bin" = NoFault /\
  exists es data,
    (("arm_test.bin", data) ∈ targets) /\
    events (generate_arm_payload w).2 = events w ++ es /\
    opened es = ["arm_test.bin"] /\
    Forall (fun e => forall n, event_file e = Some n -> n = "arm_test.bin") es /\
    (generate_arm_payload w).1 =
      match faults w "arm_test.bin" with
      | NoFault => Return tt
      | _ => Raise (OSError "arm_test.bin")
      end /\
    written es =
      match faults w "arm_test.bin" with
      | NoFault => [("arm_test.bin", data)]
      | OpenFails => []
      | WriteFails n => [("arm_test.bin", take n data)]
      end /\
    files (generate_arm_payload w).2 !! "arm_test.bin" =
      match faults w "arm_test.bin" with
      | NoFault => Some data
      | OpenFails => files w !! "arm_test.bin"
      | WriteFails n => Some (take n data)
      end /\
    (forall other, other <> "arm_test.bin" ->
       files (generate_arm_payload w).2 !! other = files w !! other) /\
    (forall j, j ∈ jobs -> job_file j <> "arm_test.bin" ->
       files w !! job_file j = Some (job_data j) ->
       files (generate_arm_payload w).2 !! job_file j = Some (job_data j)).
Proof.
  intros w.
  assert (("ARM", "arm_test.bin", generate_arm_payload) ∈ generators) as H
    by (right; left).
  split; [exact H|]. split; [vm_compute; reflexivity|].
  exact (generators_write_only_their_file "ARM" "arm_test.bin"
           generate_arm_payload w H).
Defined.

Lemma list_ascii_of_string_app s1 s2 :
  Stdlib.Strings.String.list_ascii_of_string (s1 +:+ s2)
  = Stdlib.Strings.String.list_ascii_of_string s1
    ++ Stdlib.Strings.String.list_ascii_of_string s2.
Proof. induction s1 as [|c s1 IH]; [done|]. simpl. f_equal. exact IH. Qed.

Lemma string_app_inv_tail s1 s2 t : s1 +:+ t = s2 +:+ t -> s1 = s2.
Proof.
  intros Heq. apply (f_equal Stdlib.Strings.String.list_ascii_of_string) in Heq.
  rewrite !list_ascii_of_string_app in Heq. apply app_inv_tail in Heq.
  apply (f_equal Stdlib.Strings.String.string_of_list_ascii) in Heq.
  by rewrite !Stdlib.Strings.String.string_of_list_ascii_of_string in Heq.
Qed.

(** A status line reports one number only. *)
Lemma status_line_inj label n m :
  status_line label n = status_line label m -> n = m.
Proof.
  unfold status_line, str. intros Heq.
  apply String.app_inj, String.app_inj, string_app_inv_tail in Heq.
  by apply pretty_nat_inj in Heq.
Qed.

(** C10: when the write succeeds, the number in the status line a generator
    prints last is the number of bytes it wrote, which is the size of its
    file. *)
Theorem status_reports_bytes_written label name g w :
  (label, name, g) ∈ generators ->
  faults w name = NoFault ->
  exists w' data,
    g w = (Return tt, w') /\
    written (events_since w w') = [(name, data)] /\
    files w' !! name = Some data /\
    last (events w') = Some (EvPrint (status_line label (length data))) /\
    (forall n, last (events w') = Some (EvPrint (status_line label n)) ->
       n = length data).
Proof.
  intros Hg Hf. destruct (generators_inv _ _ _ Hg) as (banner & data & Heq).
  rewrite Heq, attempt_ok by exact Hf.
  eexists _, data. split; [reflexivity|]. rewrite events_since_after.
  split; [reflexivity|]. split; [apply lookup_insert_eq|].
  assert (last (events (after w (<[name:=data]> (files w))
                          [EvPrint banner; EvOpen name; EvWrite name data;
                           EvClose name;
                           EvPrint (status_line label (length data))]))
          = Some (EvPrint (status_line label (length data)))) as Hlast.
  { unfold after. cbn [events].
    change [EvPrint banner; EvOpen name; EvWrite name data; EvClose name;
            EvPrint (status_line label (length data))]
      with ([EvPrint banner; EvOpen name; EvWrite name data; EvClose name]
            ++ [EvPrint (status_line label (length data))]).
    by rewrite app_assoc, last_snoc. }
  split; [exact Hlast|].
  intros n Hn. rewrite Hlast in Hn. injection Hn as Hn.
  symmetry. exact (status_line_inj _ _ _ Hn).
Qed.

Lemma status_reports_bytes_written_witness :
  ("x64", "x64_test.bin", generate_x64_payload) ∈ generators /\
  faults used_dir "x64_test.bin" = NoFault /\
  exists w' data,
    generate_x64_payload used_dir = (Return tt, w') /\
    written (events_since used_dir w') = [("x64_test.bin", data)] /\
    files w' !! "x64_test.bin" = Some data /\
    last (events w') = Some (EvPrint (status_line "x64" (length data))) /\
    (forall n, last (events w') = Some (EvPrint (status_line "x64" n)) ->
       n = length data).
Proof.
  assert (("x64", "x64_test.bin", generate_x64_payload) ∈ generators) as H
    by (right; right; left).
  split; [exact H|]. split; [reflexivity|].
  exact (status_reports_bytes_written "x64" "x64_test.bin"
           generate_x64_payload used_dir H eq_refl).
Defined.


(** * More of the script's behaviour *)

(** ** How a run ends *)

(** A run of [main] either gets through every generator or stops at the
    first file the operating system fails. *)
Lemma main_cases w :
  (all_writes_succeed w /\
   main w =
   (Return tt,
    after w (install jobs (files w))
      (prologue ++ concat (job_events <$> jobs) ++ epilogue))) \/
  (exists done j rest,
     jobs = done ++ j :: rest /\
     Forall (fun d => faults w (job_file d) = NoFault) done /\
     faults w (job_file j) <> NoFault /\
     main w =
     (Raise (OSError (job_file j)),
      after w (failed_files j (faults w (job_file j)) (install done (files w)))
        (prologue ++ concat (job_events <$> done)
         ++ failed_events j (faults w (job_file j))))).
Proof.
  destruct (first_failure w jobs) as [Hall|(done & j & rest & Hjobs & Hdone & Hj)].
  - left. apply all_writes_succeed_jobs in Hall. split; [exact Hall|].
    by apply main_ok.
  - right. exists done, j, rest. repeat split; try assumption.
    by apply (main_fails _ _ _ rest).
Qed.

Lemma attempt_fails banner name data status w :
  faults w name <> NoFault ->
  (attempt banner name data status w).1 = Raise (OSError name).
Proof. intros Hf. unfold attempt. by destruct (faults w name). Qed.

(** A generator returns exactly when the operating system lets its file be
    opened and written; otherwise it raises [OSError] for that file.  It
    never raises [ValueError]: every literal it puts into its [bytearray] is
    in [range(256)]. *)
Theorem generator_outcome label name g w :
  (label, name, g) ∈ generators ->
  ((g w).1 = Return tt <-> faults w name = NoFault) /\
  ((g w).1 <> Return tt -> (g w).1 = Raise (OSError name)) /\
  (g w).1 <> Raise ValueError.
Proof.
  intros Hg. destruct (generators_inv _ _ _ Hg) as (banner & data & Heq).
  rewrite Heq.
  destruct (decide (faults w name = NoFault)) as [Hf|Hf].
  - rewrite attempt_ok by exact Hf. cbn. repeat split; done.
  - rewrite (attempt_fails _ _ _ _ _ Hf). repeat split; try done.
Qed.

Lemma generator_outcome_witness :
  ("ARM", "arm_test.bin", generate_arm_payload) ∈ generators /\
  (((generate_arm_payload locked_arm_dir).1 = Return tt
    <-> faults locked_arm_dir "arm_test.bin" = NoFault) /\
   ((generate_arm_payload locked_arm_dir).1 <> Return tt ->
    (generate_arm_payload locked_arm_dir).1 = Raise (OSError "arm_test.bin")) /\
   (generate_arm_payload locked_arm_dir).1 <> Raise ValueError).
Proof.
  assert (("ARM", "arm_test.bin", generate_arm_payload) ∈ generators) as H
    by (right; left).
  split; [exact H|].
  exact (generator_outcome "ARM" "arm_test.bin" generate_arm_payload
           locked_arm_dir H).
Defined.

(** [main] returns exactly when every payload file can be opened and
    written. *)
Theorem main_returns_iff_all_writes_succeed w :
  (main w).1 = Return tt <-> all_writes_succeed w.
Proof.
  split.
  - intros Hret. destruct (main w) as [r w'] eqn:Hmain. cbn in Hret. subst r.
    exact (main_returns_inv _ _ _ Hmain).
  - intros Hall. by rewrite main_ok.
Qed.

(** An exception of [main] is the [OSError] of the first payload file, in
    the order x86, ARM, x64, simple, that the operating system fails; the
    files before it can all be written. *)
Theorem main_raises_first_failure w e w' :
  main w = (Raise e, w') ->
  exists done j rest,
    jobs = done ++ j :: rest /\
    e = OSError (job_file j) /\
    job_file j ∈ payload_files /\
    faults w (job_file j) <> NoFault /\
    Forall (fun d => faults w (job_file d) = NoFault) done.
Proof.
  intros Hmain.
  destruct (main_cases w) as [[_ Hok]|(done & j & rest & Hjobs & Hdone & Hj & Hfail)].
  - rewrite Hok in Hmain. discriminate.
  - rewrite Hfail in Hmain. injection Hmain as <- _.
    exists done, j, rest. repeat split; try assumption.
    unfold payload_files. rewrite Hjobs. apply list_elem_of_fmap.
    exists j. split; [done|]. apply elem_of_app. right. left.
Qed.

Lemma main_raises_first_failure_witness :
  let w' :=
    after locked_arm_dir
      (<["x86_test.bin" := x86_bytes]> (files locked_arm_dir))
      (prologue
       ++ [EvPrint "Generating x86 test payload..."; EvOpen "x86_test.bin";
           EvWrite "x86_test.bin" x86_bytes; EvClose "x86_test.bin";
           EvPrint "x86 payload generated (17 bytes)";
           EvPrint "Generating ARM test payload..."; EvOpen "arm_test.bin"]) in
  main locked_arm_dir = (Raise (OSError "arm_test.bin"), w') /\
  exists done j rest,
    jobs = done ++ j :: rest /\
    OSError "arm_test.bin" = OSError (job_file j) /\
    job_file j ∈ payload_files /\
    faults locked_arm_dir (job_file j) <> NoFault /\
    Forall (fun d => faults locked_arm_dir (job_file d) = NoFault) done.
Proof.
  intros w'.
  assert (main locked_arm_dir = (Raise (OSError "arm_test.bin"), w')) as H.
  { by rewrite (main_fails locked_arm_dir (take 1 jobs) _ (drop 2 jobs) eq_refl)
      by (by repeat constructor). }
  split; [exact H|].
  exact (main_raises_first_failure locked_arm_dir _ w' H).
Defined.

(** ** What a run does to the directory *)

Lemma install_union js (fs : gmap string (list Z)) :
  NoDup (job_file <$> js) ->
  install js fs = list_to_map (target <$> js) ∪ fs.
Proof.
  intros Hnd. apply map_eq. intros name.
  assert ((target <$> js).*1 = job_file <$> js) as Hfst
    by (by rewrite <- list_fmap_compose).
  destruct (decide (name ∈ job_file <$> js)) as [Hin|Hnot].
  - apply list_elem_of_fmap in Hin as (j & -> & Hin).
    rewrite lookup_install by assumption. symmetry.
    apply lookup_union_Some_l, elem_of_list_to_map_1.
    + by rewrite Hfst.
    + apply list_elem_of_fmap. by exists j.
  - rewrite lookup_install_other by exact Hnot.
    rewrite lookup_union_r; [done|].
    apply not_elem_of_list_to_map_1. by rewrite Hfst.
Qed.

Lemma dom_install js (fs : gmap string (list Z)) :
  dom (install js fs) = dom fs ∪ list_to_set (job_file <$> js).
Proof.
  revert fs. induction js as [|j js IH]; intros fs.
  - cbn. set_solver.
  - rewrite install_cons, IH, dom_insert_L, fmap_cons, list_to_set_cons.
    set_solver.
Qed.

Lemma dom_failed_files j f (fs : gmap string (list Z)) :
  dom fs ⊆ dom (failed_files j f fs) /\
  dom (failed_files j f fs) ⊆ dom fs ∪ {[job_file j]}.
Proof. destruct f; cbn; rewrite ?dom_insert_L; set_solver. Qed.

Lemma main_frame w other :
  other ∉ job_file <$> jobs ->
  files (main w).2 !! other = files w !! other.
Proof.
  intros Hother.
  destruct (main_cases w) as [[_ ->]|(done & j & rest & Hjobs & _ & _ & ->)];
    cbn [snd]; rewrite files_after.
  - by apply lookup_install_other.
  - rewrite Hjobs, fmap_app, fmap_cons in Hother.
    apply not_elem_of_app in Hother as [Hod Hother].
    apply not_elem_of_cons in Hother as [Hoj _].
    rewrite lookup_failed_files_ne by exact Hoj.
    by apply lookup_install_other.
Qed.

(** On every run of [main], whether it returns or raises, a file that is
    none of the four payload files holds afterwards what it held before. *)
Theorem main_leaves_other_files w other :
  other ∉ ["x86_test.bin"; "arm_test.bin"; "x64_test.bin"; "test_payload.bin"] ->
  files (main w).2 !! other = files w !! other.
Proof. exact (main_frame w other). Qed.

Lemma main_leaves_other_files_witness :
  ("notes.txt"
   ∉ ["x86_test.bin"; "arm_test.bin"; "x64_test.bin"; "test_payload.bin"]) /\
  files (main full_disk_dir).2 !! "notes.txt" = files full_disk_dir !! "notes.txt".
Proof.
  assert ("notes.txt" ∉ ["x86_test.bin"; "arm_test.bin"; "x64_test.bin";
                          "test_payload.bin"]) as H
    by (apply (bool_decide_unpack _); vm_compute; reflexivity).
  split; [exact H|]. exact (main_leaves_other_files full_disk_dir "notes.txt" H).
Defined.

(** [main] never removes a file, and the only files it can add are the four
    payload files, on every run. *)
Theorem main_never_removes_a_file w :
  dom (files w) ⊆ dom (files (main w).2) /\
  dom (files (main w).2) ⊆
    dom (files w)
    ∪ {["x86_test.bin"; "arm_test.bin"; "x64_test.bin"; "test_payload.bin"]}.
Proof.
  change ({["x86_test.bin"; "arm_test.bin"; "x64_test.bin"; "test_payload.bin"]}
          : gset string)
    with (list_to_set (C:=gset string) (job_file <$> jobs)).
  destruct (main_cases w) as [[_ ->]|(done & j & rest & Hjobs & _ & _ & ->)];
    cbn [snd]; rewrite files_after.
  - rewrite dom_install. set_solver.
  - destruct (dom_failed_files j (faults w (job_file j))
                (install done (files w))) as [Hlo Hhi].
    rewrite dom_install in Hlo, Hhi.
    rewrite Hjobs, fmap_app, fmap_cons, list_to_set_app_L, list_to_set_cons.
    set_solver.
Qed.

(** When every write succeeds, the directory after [main] is the directory
    before with the four payload files put over it: they hold their
    payloads, whatever they held, and every other file is as it was. *)
Theorem main_overwrites_directory w :
  all_writes_succeed w ->
  exists w',
    main w = (Return tt, w') /\
    files w' =
      {["x86_test.bin" := x86_bytes; "arm_test.bin" := arm_bytes;
        "x64_test.bin" := x64_bytes; "test_payload.bin" := simple_bytes]}
      ∪ files w /\
    dom (files w') =
      dom (files w)
      ∪ {["x86_test.bin"; "arm_test.bin"; "x64_test.bin"; "test_payload.bin"]}.
Proof.
  intros Hall. rewrite main_ok by exact Hall.
  eexists. split; [reflexivity|]. rewrite files_after. split.
  - rewrite install_union by exact payload_files_NoDup.
    apply (f_equal (fun m => m ∪ files w)).
    rewrite <- insert_empty. reflexivity.
  - rewrite dom_install. apply (f_equal (fun s => dom (files w) ∪ s)).
    cbn. set_solver.
Qed.

Lemma main_overwrites_directory_witness :
  all_writes_succeed used_dir /\
  exists w',
    main used_dir = (Return tt, w') /\
    files w' =
      {["x86_test.bin" := x86_bytes; "arm_test.bin" := arm_bytes;
        "x64_test.bin" := x64_bytes; "test_payload.bin" := simple_bytes]}
      ∪ files used_dir /\
    dom (files w') =
      dom (files used_dir)
      ∪ {["x86_test.bin"; "arm_test.bin"; "x64_test.bin"; "test_payload.bin"]}.
Proof.
  assert (all_writes_succeed used_dir) as H by (by repeat constructor).
  split; [exact H|]. exact (main_overwrites_directory used_dir H).
Defined.

(** ** What a run prints *)

Lemma printed_app es1 es2 : printed (es1 ++ es2) = printed es1 ++ printed es2.
Proof. apply omap_app. Qed.

Lemma closed_app es1 es2 : closed (es1 ++ es2) = closed es1 ++ closed es2.
Proof. apply omap_app. Qed.

Lemma opened_app es1 es2 : opened (es1 ++ es2) = opened es1 ++ opened es2.
Proof. apply omap_app. Qed.

Lemma written_app es1 es2 : written (es1 ++ es2) = written es1 ++ written es2.
Proof. apply omap_app. Qed.

(** The ways to split the four jobs at one of them. *)
Lemma jobs_split_length done j rest :
  jobs = done ++ j :: rest ->
  done = take (length done) jobs /\
  j :: rest = drop (length done) jobs /\
  (length done < 4)%nat.
Proof.
  intros Hjobs. rewrite Hjobs at 1 2.
  rewrite take_app_length, drop_app_length. repeat split.
  apply (f_equal length) in Hjobs. rewrite length_app in Hjobs.
  cbn in Hjobs. lia.
Qed.

Ltac split_jobs H :=
  let Htake := fresh "Htake" in
  let Hdrop := fresh "Hdrop" in
  let Hlen := fresh "Hlen" in
  destruct (jobs_split_length _ _ _ H) as (Htake & Hdrop & Hlen);
  match type of Hlen with
  | (length ?done < 4)%nat =>
      destruct (length done) as [|[|[|[|?]]]]; [| | | |lia];
      cbn in Htake, Hdrop; injection Hdrop as -> ->; subst done
  end.

(** What a failing run prints is the beginning of what a successful run
    prints, up to the announcement of the failing generator. *)
Lemma printed_failed_run done j rest f :
  jobs = done ++ j :: rest ->
  printed (prologue ++ concat (job_events <$> done) ++ failed_events j f)
  = take (4 + 2 * length done) main_output.
Proof.
  intros Hjobs. rewrite !printed_app, printed_failed_events.
  split_jobs Hjobs; reflexivity.
Qed.

Lemma printed_successful_run :
  printed (prologue ++ concat (job_events <$> jobs) ++ epilogue) = main_output.
Proof. reflexivity. Qed.

Lemma failure_not_all_writes_succeed w done j rest :
  jobs = done ++ j :: rest ->
  faults w (job_file j) <> NoFault ->
  ~ all_writes_succeed w.
Proof.
  intros Hjobs Hj Hall. apply all_writes_succeed_jobs in Hall.
  rewrite Hjobs in Hall. apply Forall_app in Hall as [_ Hall].
  apply Forall_cons in Hall as [Hall _]. contradiction.
Qed.

(** On every run, what [main] prints is a beginning of the twenty lines of
    a successful run, and it is all of them exactly when every write
    succeeds: a failing run prints nothing of its own about the failure. *)
Theorem main_output_is_a_prefix w :
  printed (events_since w (main w).2) `prefix_of` main_output /\
  (printed (events_since w (main w).2) = main_output <-> all_writes_succeed w).
Proof.
  destruct (main_cases w)
    as [[Hall ->]|(done & j & rest & Hjobs & _ & Hj & ->)];
    cbn [snd]; rewrite events_since_after.
  - rewrite printed_successful_run. split; [reflexivity|]. by split.
  - rewrite (printed_failed_run _ _ rest) by exact Hjobs.
    split; [apply prefix_take|]. split.
    + intros Heq. apply (f_equal length) in Heq. rewrite length_take in Heq.
      apply jobs_split_length in Hjobs as (_ & _ & Hlen).
      cbn [main_output length] in Heq. lia.
    + intros Hall. by destruct (failure_not_all_writes_succeed _ _ _ _ Hjobs Hj).
Qed.

(** The line "All test payloads generated successfully!" is printed exactly
    when every write succeeded. *)
Theorem success_message_iff_all_writes_succeed w :
  "All test payloads generated successfully!"
    ∈ printed (events_since w (main w).2)
  <-> all_writes_succeed w.
Proof.
  destruct (main_cases w)
    as [[Hall ->]|(done & j & rest & Hjobs & _ & Hj & ->)];
    cbn [snd]; rewrite events_since_after.
  - rewrite printed_successful_run. split; [done|]. intros _.
    unfold main_output. do 12 right. left.
  - rewrite (printed_failed_run _ _ rest) by exact Hjobs. split.
    + intros Hin. exfalso. revert Hin.
      apply jobs_split_length in Hjobs as (_ & _ & Hlen).
      destruct (length done) as [|[|[|[|?]]]]; [| | | |lia];
        apply (bool_decide_unpack _); vm_compute; reflexivity.
    + intros Hall. by destruct (failure_not_all_writes_succeed _ _ _ _ Hjobs Hj).
Qed.

(** ** Files are closed again *)

Lemma closed_job_events js : closed (concat (job_events <$> js)) = job_file <$> js.
Proof.
  induction js as [|j js IH]; [done|].
  rewrite fmap_cons, concat_cons, closed_app, IH. reflexivity.
Qed.

Lemma filter_openable_done w (done : list job) :
  Forall (fun d => faults w (job_file d) = NoFault) done ->
  filter (fun name => faults w name <> OpenFails) (job_file <$> done)
  = job_file <$> done.
Proof.
  induction 1 as [|d done Hd _ IH]; [done|].
  rewrite fmap_cons, filter_cons_True by (rewrite Hd; done).
  by rewrite IH.
Qed.

(** On every run of [main], the files closed are, in order, the files whose
    [open] was not refused: the [with] statement closes the file also when
    the write raises. *)
Theorem main_closes_every_file_it_opens w :
  closed (events_since w (main w).2)
  = filter (fun name => faults w name <> OpenFails)
      (opened (events_since w (main w).2)).
Proof.
  destruct (main_cases w)
    as [[Hall ->]|(done & j & rest & Hjobs & Hdone & Hj & ->)];
    cbn [snd]; rewrite events_since_after.
  - apply all_writes_succeed_jobs in Hall.
    rewrite !closed_app, !opened_app, closed_job_events, opened_job_events.
    change (closed prologue) with (@nil string).
    change (closed epilogue) with (@nil string).
    change (opened prologue) with (@nil string).
    change (opened epilogue) with (@nil string).
    cbn [app]. rewrite !app_nil_r. by rewrite filter_openable_done.
  - rewrite !closed_app, !opened_app, closed_job_events, opened_job_events,
      opened_failed_events.
    change (closed prologue) with (@nil string).
    change (opened prologue) with (@nil string).
    cbn [app]. rewrite filter_app, filter_openable_done by exact Hdone.
    f_equal.
    destruct (faults w (job_file j)) eqn:Hf; [done| |].
    + by rewrite filter_cons_False, filter_nil by (rewrite Hf; intros []; done).
    + by rewrite filter_cons_True, filter_nil by (by rewrite Hf).
Qed.

(** ** The two ways a generator fails *)

(** When [open] is refused, the generator raises [OSError] for its file
    after its announcement, and the directory is exactly as it was: the old
    contents of the file, if any, are still there. *)
Theorem generator_open_refused label name g w :
  (label, name, g) ∈ generators ->
  faults w name = OpenFails ->
  exists w' banner,
    g w = (Raise (OSError name), w') /\
    files w' = files w /\
    events_since w w' = [EvPrint banner; EvOpen name].
Proof.
  intros Hg Hf. destruct (generators_inv _ _ _ Hg) as (banner & data & Heq).
  rewrite Heq. unfold attempt. rewrite Hf.
  eexists _, banner. split; [reflexivity|].
  by rewrite events_since_after.
Qed.

Lemma generator_open_refused_witness :
  ("ARM", "arm_test.bin", generate_arm_payload) ∈ generators /\
  faults locked_arm_dir "arm_test.bin" = OpenFails /\
  exists w' banner,
    generate_arm_payload locked_arm_dir = (Raise (OSError "arm_test.bin"), w') /\
    files w' = files locked_arm_dir /\
    events_since locked_arm_dir w' = [EvPrint banner; EvOpen "arm_test.bin"].
Proof.
  assert (("ARM", "arm_test.bin", generate_arm_payload) ∈ generators) as H
    by (right; left).
  split; [exact H|]. split; [reflexivity|].
  exact (generator_open_refused "ARM" "arm_test.bin" generate_arm_payload
           locked_arm_dir H eq_refl).
Defined.

(** When the file is opened but only [n] bytes of the write reach it, the
    generator raises [OSError] without a status line, the file is closed,
    and it holds the first [n] bytes of the payload the generator writes
    when it succeeds: what the file held before is lost. *)
Theorem generator_write_fails label name g w n :
  (label, name, g) ∈ generators ->
  faults w name = WriteFails n ->
  exists w' data,
    g w = (Raise (OSError name), w') /\
    files w' !! name = Some (take n data) /\
    (forall w0, faults w0 name = NoFault ->
       files (g w0).2 !! name = Some data) /\
    written (events_since w w') = [(name, take n data)] /\
    closed (events_since w w') = [name] /\
    length (printed (events_since w w')) = 1%nat.
Proof.
  intros Hg Hf. destruct (generators_inv _ _ _ Hg) as (banner & data & Heq).
  rewrite Heq. unfold attempt at 1. rewrite Hf.
  eexists _, data. split; [reflexivity|].
  rewrite events_since_after, files_after.
  split; [apply lookup_insert_eq|]. split; [|done].
  intros w0 Hf0. rewrite Heq, attempt_ok by exact Hf0.
  apply lookup_insert_eq.
Qed.

Lemma generator_write_fails_witness :
  ("x64", "x64_test.bin", generate_x64_payload) ∈ generators /\
  faults full_disk_dir "x64_test.bin" = WriteFails 5 /\
  exists w' data,
    generate_x64_payload full_disk_dir = (Raise (OSError "x64_test.bin"), w') /\
    files w' !! "x64_test.bin" = Some (take 5 data) /\
    (forall w0, faults w0 "x64_test.bin" = NoFault ->
       files (generate_x64_payload w0).2 !! "x64_test.bin" = Some data) /\
    written (events_since full_disk_dir w') = [("x64_test.bin", take 5 data)] /\
    closed (events_since full_disk_dir w') = ["x64_test.bin"] /\
    length (printed (events_since full_disk_dir w')) = 1%nat.
Proof.
  assert (("x64", "x64_test.bin", generate_x64_payload) ∈ generators) as H
    by (right; right; left).
  split; [exact H|]. split; [reflexivity|].
  exact (generator_write_fails "x64" "x64_test.bin" generate_x64_payload
           full_disk_dir 5 H eq_refl).
Defined.

(** ** Generators in another order *)

(** Two different generators whose writes succeed leave the same directory
    in either order: they write different files. *)
Theorem generators_commute label1 name1 g1 label2 name2 g2 w :
  (label1, name1, g1) ∈ generators ->
  (label2, name2, g2) ∈ generators ->
  name1 <> name2 ->
  faults w name1 = NoFault ->
  faults w name2 = NoFault ->
  (bind g1 (fun _ => g2) w).1 = Return tt /\
  (bind g2 (fun _ => g1) w).1 = Return tt /\
  files (bind g1 (fun _ => g2) w).2 = files (bind g2 (fun _ => g1) w).2.
Proof.
  intros Hg1 Hg2 Hne Hf1 Hf2.
  destruct (generators_inv _ _ _ Hg1) as (banner1 & data1 & Heq1).
  destruct (generators_inv _ _ _ Hg2) as (banner2 & data2 & Heq2).
  unfold bind.
  rewrite Heq1, attempt_ok by exact Hf1. rewrite Heq2, attempt_ok by exact Hf2.
  rewrite Heq2, attempt_ok by exact Hf2. rewrite Heq1, attempt_ok by exact Hf1.
  cbn [fst snd]. rewrite !files_after.
  repeat split. by apply insert_insert_ne.
Qed.

Lemma generators_commute_witness :
  ("Simple", "test_payload.bin", generate_simple_payload) ∈ generators /\
  ("x86", "x86_test.bin", generate_x86_payload) ∈ generators /\
  "test_payload.bin" <> "x86_test.bin" /\
  faults used_dir "test_payload.bin" = NoFault /\
  faults used_dir "x86_test.bin" = NoFault /\
  (bind generate_simple_payload (fun _ => generate_x86_payload) used_dir).1
    = Return tt /\
  (bind generate_x86_payload (fun _ => generate_simple_payload) used_dir).1
    = Return tt /\
  files (bind generate_simple_payload (fun _ => generate_x86_payload) used_dir).2
  = files (bind generate_x86_payload (fun _ => generate_simple_payload) used_dir).2.
Proof.
  assert (("Simple", "test_payload.bin", generate_simple_payload) ∈ generators)
    as H1 by (do 3 right; left).
  assert (("x86", "x86_test.bin", generate_x86_payload) ∈ generators)
    as H2 by left.
  assert ("test_payload.bin" <> "x86_test.bin") as H3 by discriminate.
  split; [exact H1|]. split; [exact H2|]. split; [exact H3|].
  split; [reflexivity|]. split; [reflexivity|].
  exact (generators_commute _ _ _ _ _ _ used_dir H1 H2 H3 eq_refl eq_refl).
Defined.

(** ** Only bytes are written *)

Lemma jobs_data_bytes :
  Forall (fun j => Forall (fun b => is_byte b = true) (job_data j)) jobs.
Proof. repeat constructor. Qed.

Lemma bytes_only_install js (fs : gmap string (list Z)) :
  Forall (fun j => Forall (fun b => is_byte b = true) (job_data j)) js ->
  bytes_only fs -> bytes_only (install js fs).
Proof.
  revert fs. induction js as [|j js IH]; intros fs Hjs Hfs; [done|].
  apply Forall_cons in Hjs as [Hj Hjs]. rewrite install_cons.
  apply IH; [exact Hjs|]. by apply map_Forall_insert_2.
Qed.

Lemma bytes_only_failed_files j f (fs : gmap string (list Z)) :
  Forall (fun b => is_byte b = true) (job_data j) ->
  bytes_only fs -> bytes_only (failed_files j f fs).
Proof.
  intros Hj Hfs. destruct f; cbn; [done..|].
  apply map_Forall_insert_2; [|done]. by apply Forall_take.
Qed.

Lemma written_failed_events_bytes j f :
  Forall (fun b => is_byte b = true) (job_data j) ->
  Forall (fun t => Forall (fun b => is_byte b = true) t.2)
    (written (failed_events j f)).
Proof.
  intros Hj. destruct f; cbn; repeat constructor. by apply Forall_take.
Qed.

(** Whatever happens, [main] writes integers of [range(256)] only, and a
    directory whose files hold such integers only is still one afterwards. *)
Theorem main_writes_bytes_only w :
  bytes_only (files w) ->
  bytes_only (files (main w).2) /\
  Forall (fun t => Forall (fun b => is_byte b = true) t.2)
    (written (events_since w (main w).2)).
Proof.
  intros Hfs. pose proof jobs_data_bytes as Hjobs_bytes.
  destruct (main_cases w)
    as [[Hall ->]|(done & j & rest & Hjobs & _ & _ & ->)];
    cbn [snd]; rewrite events_since_after, files_after.
  - split; [by apply bytes_only_install|].
    rewrite !written_app, written_job_events.
    change (written prologue) with (@nil (string * list Z)).
    change (written epilogue) with (@nil (string * list Z)).
    cbn [app]. rewrite app_nil_r. by apply Forall_fmap.
  - rewrite Hjobs in Hjobs_bytes.
    apply Forall_app in Hjobs_bytes as [Hdone_bytes Hrest].
    apply Forall_cons in Hrest as [Hj_bytes _]. split.
    + by apply bytes_only_failed_files, bytes_only_install.
    + rewrite !written_app, written_job_events.
      change (written prologue) with (@nil (string * list Z)).
      cbn [app]. apply Forall_app. split.
      * by apply Forall_fmap.
      * by apply written_failed_events_bytes.
Qed.

Lemma main_writes_bytes_only_witness :
  bytes_only (files full_disk_dir) /\
  bytes_only (files (main full_disk_dir).2) /\
  Forall (fun t => Forall (fun b => is_byte b = true) t.2)
    (written (events_since full_disk_dir (main full_disk_dir).2)).
Proof.
  assert (bytes_only (files full_disk_dir)) as H.
  { apply map_Forall_insert_2; [by repeat constructor|].
    apply map_Forall_empty. }
  split; [exact H|]. exact (main_writes_bytes_only full_disk_dir H).
Defined.

(** ** A run after a failed run *)

(** Whatever a first run of [main] did, also when it failed and left a
    truncated file, a run on the directory it left, with the operating
    system now letting the four files be written, returns and leaves the
    payloads over the directory the first run started from. *)
Theorem main_rerun_recovers w f :
  Forall (fun name => f name = NoFault)
    ["x86_test.bin"; "arm_test.bin"; "x64_test.bin"; "test_payload.bin"] ->
  (main (with_faults f (main w).2)).1 = Return tt /\
  files (main (with_faults f (main w).2)).2 =
    {["x86_test.bin" := x86_bytes; "arm_test.bin" := arm_bytes;
      "x64_test.bin" := x64_bytes; "test_payload.bin" := simple_bytes]}
    ∪ files w.
Proof.
  intros Hf.
  assert (all_writes_succeed (with_faults f (main w).2)) as Hall by exact Hf.
  rewrite main_ok by exact Hall. split; [reflexivity|].
  cbn [snd]. rewrite files_after.
  change (files (with_faults f (main w).2)) with (files (main w).2).
  rewrite install_union by exact payload_files_NoDup.
  rewrite <- insert_empty.
  change (<["x86_test.bin":=x86_bytes]> _)
    with (list_to_map (M:=gmap string (list Z)) (target <$> jobs)).
  apply map_eq. intros name. rewrite !lookup_union.
  destruct (list_to_map (target <$> jobs) !! name) as [bs|] eqn:Hname.
  { by destruct (files (main w).2 !! name), (files w !! name). }
  apply not_elem_of_list_to_map in Hname.
  rewrite <- list_fmap_compose in Hname.
  by rewrite (main_frame w name Hname).
Qed.

Lemma main_rerun_recovers_witness :
  Forall (fun name => (fun _ : string => NoFault) name = NoFault)
    ["x86_test.bin"; "arm_test.bin"; "x64_test.bin"; "test_payload.bin"] /\
  (main (with_faults (fun _ => NoFault) (main full_disk_dir).2)).1
    = Return tt /\
  files (main (with_faults (fun _ => NoFault) (main full_disk_dir).2)).2 =
    {["x86_test.bin" := x86_bytes; "arm_test.bin" := arm_bytes;
      "x64_test.bin" := x64_bytes; "test_payload.bin" := simple_bytes]}
    ∪ files full_disk_dir.
Proof.
  assert (Forall (fun name => (fun _ : string => NoFault) name = NoFault)
            ["x86_test.bin"; "arm_test.bin"; "x64_test.bin";
             "test_payload.bin"]) as H by (by repeat constructor).
  split; [exact H|].
  exact (main_rerun_recovers full_disk_dir (fun _ => NoFault) H).
Defined.
